(** * The nh-2024-curriculum notebooks: syntax, behaviour and properties

    The repository holds two Jupyter notebooks: the abagen walk-through
    (fetching and parcellating microarray data) and the PyTorch
    introduction (a curve-distance loss, an MNIST dataset wrapper and a
    small fully connected network).

    The development has two layers.
    - The code cells of both notebooks are transcribed, statement by
      statement, into an abstract syntax modelled on Python's [ast]
      module.  Structural facts (which functions and classes are
      defined, where loops and branches occur, which calls are made and
      in which order, which files are written) are computed from that
      transcription.
    - The functions and classes the notebooks define ([curve], [loss],
      [MNISTDataset], [NeuralNetwork]) are embedded as Rocq functions
      and their behaviour is proved. *)

From Stdlib Require Import List String Ascii ZArith QArith Qminmax Reals Bool Lia Lra.
Import ListNotations.

#[local] Set Warnings "-register-all".

Local Open Scope string_scope.
Local Open Scope list_scope.

(** ** Python syntax *)

Module PyAst.

(** Literals.  A float literal [d * 10^e] keeps its decimal digits, so
    [0.75] is [CFloat 75 (-2)] and [1e-4] is [CFloat 1 (-4)]. *)
Inductive constant : Type :=
| CInt (z : Z)
| CFloat (digits : Z) (exp10 : Z)
| CStr (s : string)
| CBool (b : bool)
| CNone.

(** Expressions, named after the node classes of Python's [ast]. *)
Inductive expr : Type :=
| Name (id : string)
| Constant (c : constant)
| Attribute (value : expr) (attr : string)
| Subscript (value : expr) (index : list expr)
| Slice
| Call (func : expr) (args : list expr) (keywords : list (string * expr))
| BinOp (left : expr) (op : string) (right : expr)
| UnaryOp (op : string) (operand : expr)
| Compare (left : expr) (op : string) (right : expr)
| Tuple (elts : list expr)
| ListE (elts : list expr)
| JoinedStr (values : list expr)
| FormattedValue (value : expr) (format_spec : string).

(** Statements.  [Shell] is the IPython [!command] line. *)
Inductive stmt : Type :=
| Import (module_ : string) (asname : option string)
| ImportFrom (module_ : string) (names : list string)
| Assign (target : expr) (value : expr)
| Expr (value : expr)
| FunctionDef (name : string) (params : list string) (body : list stmt)
| ClassDef (name : string) (bases : list expr) (body : list stmt)
| Return (value : expr)
| For (target : expr) (iter : expr) (body : list stmt)
| While (test : expr) (body : list stmt)
| If (test : expr) (body : list stmt) (orelse : list stmt)
| Break
| Continue
| Pass
| Try (body : list stmt) (handlers : list (list stmt)) (finalbody : list stmt)
| Raise (exc : expr)
| Assert (test : expr)
| With (items : list expr) (body : list stmt)
| Global (names : list string)
| Nonlocal (names : list string)
| Shell (command : string).

(** A code cell, with the line of the source file its first source line
    is on.  Markdown cells carry no code and are left out. *)
Record cell : Type := Cell { cell_line : nat; cell_code : list stmt }.

Definition notebook : Type := list cell.

Definition nb_code (nb : notebook) : list stmt := flat_map cell_code nb.

(** *** Rendering of callees *)

(** The dotted path of an expression used as a callee; a call in the
    path is written [()], a subscript [[]]. *)
Fixpoint render (e : expr) : string :=
  match e with
  | Name id => id
  | Attribute v a => render v ++ "." ++ a
  | Call f _ _ => render f ++ "()"
  | Subscript v _ => render v ++ "[]"
  | _ => "?"
  end.

(** The name at the root of a callee path. *)
Fixpoint root (e : expr) : option string :=
  match e with
  | Name id => Some id
  | Attribute v _ => root v
  | Call f _ _ => root f
  | Subscript v _ => root v
  | _ => None
  end.

(** *** Calls, in evaluation order *)

(** Python evaluates the callee, then the positional arguments left to
    right, then the keyword arguments, and then makes the call. *)
Fixpoint expr_calls (e : expr) : list expr :=
  match e with
  | Name _ | Constant _ | Slice => []
  | Attribute v _ => expr_calls v
  | Subscript v ix => expr_calls v ++ flat_map expr_calls ix
  | Call f args kws =>
      expr_calls f ++ flat_map expr_calls args
        ++ flat_map (fun kw => expr_calls (snd kw)) kws ++ [e]
  | BinOp l _ r => expr_calls l ++ expr_calls r
  | Compare l _ r => expr_calls l ++ expr_calls r
  | UnaryOp _ v => expr_calls v
  | Tuple es | ListE es | JoinedStr es => flat_map expr_calls es
  | FormattedValue v _ => expr_calls v
  end.

(** Every call written in a statement, bodies of definitions, loops and
    branches included. *)
Fixpoint stmt_calls (s : stmt) : list expr :=
  match s with
  | Assign _ v | Expr v | Return v | Raise v | Assert v => expr_calls v
  | FunctionDef _ _ b => flat_map stmt_calls b
  | ClassDef _ bs b => flat_map expr_calls bs ++ flat_map stmt_calls b
  | For _ it b => expr_calls it ++ flat_map stmt_calls b
  | While t b => expr_calls t ++ flat_map stmt_calls b
  | If t b o => expr_calls t ++ flat_map stmt_calls b ++ flat_map stmt_calls o
  | Try b hs f =>
      flat_map stmt_calls b ++ flat_map (flat_map stmt_calls) hs
        ++ flat_map stmt_calls f
  | With its b => flat_map expr_calls its ++ flat_map stmt_calls b
  | Import _ _ | ImportFrom _ _ | Break | Continue | Pass
  | Global _ | Nonlocal _ | Shell _ => []
  end.

Definition callee (e : expr) : string :=
  match e with
  | Call f _ _ => render f
  | _ => "?"
  end.

Definition nb_callees (nb : notebook) : list string :=
  map callee (flat_map stmt_calls (nb_code nb)).

(** The first occurrence of each string of a list. *)
Fixpoint dedup (seen : list string) (l : list string) : list string :=
  match l with
  | [] => []
  | x :: l' =>
      if existsb (String.eqb x) seen then dedup seen l'
      else x :: dedup (x :: seen) l'
  end.

Definition callee_root (e : expr) : list string :=
  match e with
  | Call f _ _ => match root f with Some r => [r] | None => ["?"] end
  | _ => []
  end.

(** The names at the root of the callees of a notebook, each once. *)
Definition nb_roots (nb : notebook) : list string :=
  dedup [] (flat_map callee_root (flat_map stmt_calls (nb_code nb))).

(** *** Control flow and error handling *)

(** A statement is control-free when neither it nor any statement
    nested in it is a loop, a branch, a jump or an error-handling
    construct. *)
Fixpoint control_free (s : stmt) : bool :=
  match s with
  | Import _ _ | ImportFrom _ _ | Assign _ _ | Expr _ | Return _ | Pass
  | Global _ | Nonlocal _ | Shell _ => true
  | FunctionDef _ _ b | ClassDef _ _ b => forallb control_free b
  | For _ _ _ | While _ _ | If _ _ _ | Break | Continue
  | Try _ _ _ | Raise _ | Assert _ | With _ _ => false
  end.

Definition straight_line (c : cell) : bool := forallb control_free (cell_code c).

(** Error-handling constructs: [try], [raise], [assert] and [with]. *)
Fixpoint handles_errors (s : stmt) : bool :=
  match s with
  | Try _ _ _ | Raise _ | Assert _ | With _ _ => true
  | FunctionDef _ _ b | ClassDef _ _ b | For _ _ b | While _ b =>
      existsb handles_errors b
  | If _ b o => existsb handles_errors b || existsb handles_errors o
  | _ => false
  end.

(** [global] and [nonlocal] declarations. *)
Fixpoint declares_scope (s : stmt) : bool :=
  match s with
  | Global _ | Nonlocal _ => true
  | FunctionDef _ _ b | ClassDef _ _ b | For _ _ b | While _ b =>
      existsb declares_scope b
  | If _ b o => existsb declares_scope b || existsb declares_scope o
  | Try b hs f =>
      existsb declares_scope b || existsb (existsb declares_scope) hs
        || existsb declares_scope f
  | With _ b => existsb declares_scope b
  | _ => false
  end.

(** The kinds of control statement, listed in source order. *)
Inductive control : Type :=
| KFor | KWhile | KIf | KBreak | KContinue.

Fixpoint controls (s : stmt) : list control :=
  match s with
  | For _ _ b => KFor :: flat_map controls b
  | While _ b => KWhile :: flat_map controls b
  | If _ b o => KIf :: flat_map controls b ++ flat_map controls o
  | Break => [KBreak]
  | Continue => [KContinue]
  | FunctionDef _ _ b | ClassDef _ _ b | With _ b => flat_map controls b
  | Try b hs f =>
      flat_map controls b ++ flat_map (flat_map controls) hs
        ++ flat_map controls f
  | _ => []
  end.

Definition cell_controls (c : cell) : list control :=
  flat_map controls (cell_code c).

(** *** Stores other than to variables *)

(** A target that only binds variables: a name, or a tuple of such. *)
Fixpoint plain_target (t : expr) : bool :=
  match t with
  | Name _ => true
  | Tuple es => forallb plain_target es
  | _ => false
  end.

Definition other_target (t : expr) : list string :=
  if plain_target t then [] else [render t].

(** The targets of assignments and loops that are not plain. *)
Fixpoint other_stores (s : stmt) : list string :=
  match s with
  | Assign t _ => other_target t
  | For t _ b => other_target t ++ flat_map other_stores b
  | FunctionDef _ _ b | ClassDef _ _ b | While _ b | With _ b =>
      flat_map other_stores b
  | If _ b o => flat_map other_stores b ++ flat_map other_stores o
  | Try b hs f =>
      flat_map other_stores b ++ flat_map (flat_map other_stores) hs
        ++ flat_map other_stores f
  | _ => []
  end.

Definition nb_other_stores (nb : notebook) : list string :=
  flat_map other_stores (nb_code nb).

(** The iterables of the [for] loops, rendered. *)
Fixpoint loop_iters (s : stmt) : list string :=
  match s with
  | For _ it b => render it :: flat_map loop_iters b
  | FunctionDef _ _ b | ClassDef _ _ b | While _ b | With _ b =>
      flat_map loop_iters b
  | If _ b o => flat_map loop_iters b ++ flat_map loop_iters o
  | Try b hs f =>
      flat_map loop_iters b ++ flat_map (flat_map loop_iters) hs
        ++ flat_map loop_iters f
  | _ => []
  end.

(** *** Variables shared between cells *)

(** The names an expression reads. *)
Fixpoint expr_names (e : expr) : list string :=
  match e with
  | Name id => [id]
  | Constant _ | Slice => []
  | Attribute v _ => expr_names v
  | Subscript v ix => expr_names v ++ flat_map expr_names ix
  | Call f args kws =>
      expr_names f ++ flat_map expr_names args
        ++ flat_map (fun kw => expr_names (snd kw)) kws
  | BinOp l _ r => expr_names l ++ expr_names r
  | Compare l _ r => expr_names l ++ expr_names r
  | UnaryOp _ v => expr_names v
  | Tuple es | ListE es | JoinedStr es => flat_map expr_names es
  | FormattedValue v _ => expr_names v
  end.

(** The names a target binds, and the names storing into it reads. *)
Fixpoint target_names (t : expr) : list string :=
  match t with
  | Name x => [x]
  | Tuple es | ListE es => flat_map target_names es
  | _ => []
  end.

Fixpoint target_reads (t : expr) : list string :=
  match t with
  | Tuple es | ListE es => flat_map target_reads es
  | Subscript v ix => expr_names v ++ flat_map expr_names ix
  | Attribute v _ => expr_names v
  | _ => []
  end.

(** The name [import m] binds when no [as] is given: the first
    component of [m]. *)
Fixpoint first_component (m : string) : string :=
  match m with
  | EmptyString => EmptyString
  | String c rest =>
      if Ascii.eqb c "."%char then EmptyString
      else String c (first_component rest)
  end.

Definition unbound (bound : list string) (names : list string) : list string :=
  filter (fun n => negb (existsb (String.eqb n) bound)) names.

(** Running through a statement at cell level with the names [bound] so
    far in the cell: the names it reads that the cell has not bound, and
    the names bound after it.  The bodies of [def] and [class] are not
    entered: they run later, in scopes of their own. *)
Fixpoint outside_reads (bound : list string) (s : stmt)
  : list string * list string :=
  let block :=
    fix block (bound : list string) (ss : list stmt)
      : list string * list string :=
      match ss with
      | [] => ([], bound)
      | s :: ss' =>
          let (r, b) := outside_reads bound s in
          let (r', b') := block b ss' in
          (r ++ r', b')
      end in
  match s with
  | Import m None => ([], first_component m :: bound)
  | Import _ (Some a) => ([], a :: bound)
  | ImportFrom _ names => ([], names ++ bound)
  | Assign t v =>
      (unbound bound (expr_names v ++ target_reads t), target_names t ++ bound)
  | Expr v | Return v | Raise v | Assert v => (unbound bound (expr_names v), bound)
  | FunctionDef n _ _ => ([], n :: bound)
  | ClassDef n bs _ => (unbound bound (flat_map expr_names bs), n :: bound)
  | For t it b =>
      let (r, b') := block (target_names t ++ bound) b in
      (unbound bound (expr_names it) ++ r, b')
  | While c b =>
      let (r, b') := block bound b in (unbound bound (expr_names c) ++ r, b')
  | If c b o =>
      let (r1, b1) := block bound b in
      let (r2, b2) := block b1 o in
      (unbound bound (expr_names c) ++ r1 ++ r2, b2)
  | With its b =>
      let (r, b') := block bound b in
      (unbound bound (flat_map expr_names its) ++ r, b')
  | Try b _ f =>
      let (r1, b1) := block bound b in
      let (r2, b2) := block b1 f in
      (r1 ++ r2, b2)
  | Break | Continue | Pass | Global _ | Nonlocal _ | Shell _ => ([], bound)
  end.

Fixpoint cell_outside (bound : list string) (code : list stmt)
  : list string * list string :=
  match code with
  | [] => ([], bound)
  | s :: code' =>
      let (r, b) := outside_reads bound s in
      let (r', b') := cell_outside b code' in
      (r ++ r', b')
  end.

(** The variables a cell reads that were bound by an earlier cell. *)
Fixpoint shared_from (earlier : list string) (nb : notebook) : list string :=
  match nb with
  | [] => []
  | c :: nb' =>
      let (reads, bound) := cell_outside [] (cell_code c) in
      filter (fun n => existsb (String.eqb n) earlier) reads
        ++ shared_from (bound ++ earlier) nb'
  end.

Definition nb_shared (nb : notebook) : list string := dedup [] (shared_from [] nb).

(** *** Definitions made by a notebook *)

(** Functions defined by [def], at cell level or as methods; a method is
    named [Class.method]. *)
Fixpoint defined_functions (prefix : string) (s : stmt) : list string :=
  match s with
  | FunctionDef n _ b =>
      (prefix ++ n)%string
        :: flat_map (defined_functions (prefix ++ n ++ ".")%string) b
  | ClassDef n _ b => flat_map (defined_functions (prefix ++ n ++ ".")%string) b
  | For _ _ b | While _ b | With _ b => flat_map (defined_functions prefix) b
  | If _ b o =>
      flat_map (defined_functions prefix) b
        ++ flat_map (defined_functions prefix) o
  | _ => []
  end.

Definition nb_functions (nb : notebook) : list string :=
  flat_map (defined_functions "") (nb_code nb).

(** Classes defined at cell level, each with its rendered bases. *)
Definition defined_class (s : stmt) : list (string * list string) :=
  match s with
  | ClassDef n bs _ => [(n, map render bs)]
  | _ => []
  end.

Definition nb_classes (nb : notebook) : list (string * list string) :=
  flat_map defined_class (nb_code nb).

(** Names bound by [def] and [class] at cell level. *)
Definition defined_name (s : stmt) : list string :=
  match s with
  | FunctionDef n _ _ | ClassDef n _ _ => [n]
  | _ => []
  end.

Definition nb_defined_names (nb : notebook) : list string :=
  flat_map defined_name (nb_code nb).

(** The calls of a notebook whose callee is, by name, one of the
    functions or classes the notebook defines. *)
Definition own_call (names : list string) (e : expr) : list string :=
  match e with
  | Call (Name f) _ _ => if existsb (String.eqb f) names then [f] else []
  | _ => []
  end.

Definition nb_own_calls (nb : notebook) : list string :=
  flat_map (own_call (nb_defined_names nb))
    (flat_map stmt_calls (nb_code nb)).

End PyAst.

(** ** Effects on the file system *)

Module Effects.
Import PyAst.

(** The non-empty pieces of [s] between occurrences of [sep]. *)
Fixpoint split_acc (sep : ascii) (acc : string) (s : string) : list string :=
  match s with
  | EmptyString => if String.eqb acc "" then [] else [acc]
  | String c rest =>
      if Ascii.eqb c sep
      then (if String.eqb acc "" then split_acc sep "" rest
            else acc :: split_acc sep "" rest)
      else split_acc sep (acc ++ String c "")%string rest
  end.

Definition split_at (sep : ascii) (s : string) : list string := split_acc sep "" s.

(** Words of a shell command line, split at spaces. *)
Definition shell_words (command : string) : list string := split_at " "%char command.

(** Targets of output redirections [> file] and [>> file]. *)
Fixpoint redirect_targets (ws : list string) : list string :=
  match ws with
  | w :: ((t :: _) as rest) =>
      if String.eqb w ">" || String.eqb w ">>"
      then t :: redirect_targets rest
      else redirect_targets rest
  | _ => []
  end.

(** Files a shell line writes: the destination of [cp] and [mv], and
    redirection targets.  [head] and [tail] only read. *)
Definition shell_writes (command : string) : list string :=
  let ws := shell_words command in
  match ws with
  | prog :: _ :: _ :: _ =>
      if String.eqb prog "cp" || String.eqb prog "mv"
      then [last ws ""] ++ redirect_targets ws
      else redirect_targets ws
  | _ => redirect_targets ws
  end.

(** Library entry points that write the file named by one of their
    positional arguments: the method or function name, and the position
    of the path. *)
Definition writers : list (string * nat) :=
  [("to_csv", 0%nat); ("to_pickle", 0%nat); ("to_json", 0%nat);
   ("savefig", 0%nat); ("savetxt", 0%nat); ("save", 1%nat)].

Definition last_name (f : expr) : string :=
  match f with
  | Name id => id
  | Attribute _ a => a
  | _ => "?"
  end.

Fixpoint lookup_writer (n : string) (tbl : list (string * nat)) : option nat :=
  match tbl with
  | [] => None
  | (m, i) :: tbl' => if String.eqb n m then Some i else lookup_writer n tbl'
  end.

Definition path_text (e : expr) : string :=
  match e with
  | Constant (CStr p) => p
  | _ => "?"
  end.

(** The file a call writes, if its callee is a writer. *)
Definition call_writes (e : expr) : list string :=
  match e with
  | Call f args _ =>
      match lookup_writer (last_name f) writers with
      | Some i => [path_text (nth i args Slice)]
      | None => []
      end
  | _ => []
  end.

(** Files written by the code of a statement itself: by its calls to
    writers and by its shell lines. *)
Fixpoint stmt_shells (s : stmt) : list string :=
  match s with
  | Shell c => [c]
  | FunctionDef _ _ b | ClassDef _ _ b | For _ _ b | While _ b | With _ b =>
      flat_map stmt_shells b
  | If _ b o => flat_map stmt_shells b ++ flat_map stmt_shells o
  | Try b hs f =>
      flat_map stmt_shells b ++ flat_map (flat_map stmt_shells) hs
        ++ flat_map stmt_shells f
  | _ => []
  end.

Definition stmt_writes (s : stmt) : list string :=
  flat_map call_writes (stmt_calls s) ++ flat_map shell_writes (stmt_shells s).

Definition nb_writes (nb : notebook) : list string :=
  flat_map stmt_writes (nb_code nb).

Definition nb_shells (nb : notebook) : list string :=
  flat_map stmt_shells (nb_code nb).

(** A path relative to the working directory, without a leading [./]. *)
Definition normalize (p : string) : string :=
  match p with
  | String "." (String "/" rest) => rest
  | _ => p
  end.

(** The program a shell line runs. *)
Definition shell_program (command : string) : string :=
  hd "" (shell_words command).

End Effects.

(** ** The abagen notebook *)

Module Abagen.
Import PyAst.

Definition data_dir : expr := Constant (CStr "/home/jovyan/shared/abagen-data").

Definition atlas_csv : string :=
  "/srv/conda/envs/notebook/lib/python3.10/site-packages/abagen/data/atlas-desikankilliany.csv".

Definition atlas_item (key : string) : expr :=
  Subscript (Name "atlas") [Constant (CStr key)].

(** The code cells in order.  The first cell holds comments only. *)
Definition cells : notebook :=
  [ Cell 10 [];
    Cell 22 [ Import "abagen" None ];
    Cell 33
      [ Assign (Name "files")
          (Call (Attribute (Name "abagen") "fetch_microarray") []
             [("donors", Constant (CStr "all")); ("data_dir", data_dir)]) ];
    Cell 44 [ Expr (Name "files") ];
    Cell 55
      [ Assign (Name "atlas")
          (Call (Attribute (Name "abagen") "fetch_desikan_killiany") []
             [("surface", Constant (CBool true))]);
        Expr (atlas_item "image") ];
    Cell 67
      [ Assign (Name "expression")
          (Call (Attribute (Name "abagen") "get_expression_data")
             [atlas_item "image"] [("data_dir", data_dir)]) ];
    Cell 78 [ Expr (Name "expression") ];
    Cell 89
      [ ImportFrom "abagen" ["reporting"];
        Assign (Name "generator")
          (Call (Attribute (Name "reporting") "Report")
             [atlas_item "image"; atlas_item "info"] []);
        Assign (Name "report")
          (Call (Attribute (Name "generator") "gen_report") [] []) ];
    Cell 102 [ Expr (Name "report") ];
    Cell 113
      [ ImportFrom "IPython.display" ["display"; "Markdown"];
        Expr (Call (Name "display")
                [Call (Name "Markdown") [Name "report"] []] []) ];
    Cell 125
      [ Assign (Tuple [Name "expression_maxprobe"; Name "report_maxprobe"])
          (Call (Attribute (Name "abagen") "get_expression_data")
             [atlas_item "image"; atlas_item "info"]
             [("probe_selection", Constant (CStr "max_intensity"));
              ("return_report", Constant (CBool true))]) ];
    Cell 137 [ Expr (Name "expression_maxprobe") ];
    Cell 148
      [ ImportFrom "IPython.display" ["display"; "Markdown"];
        Expr (Call (Name "display")
                [Call (Name "Markdown") [Name "report_maxprobe"] []] []) ];
    Cell 160
      [ Expr (Call (Attribute (Name "expression") "to_csv")
                [Constant (CStr "Expression_AHBA_abagen_defaultparam.csv")]
                [("index", Constant (CBool false))]) ];
    Cell 171
      [ Expr (Call (Attribute (Name "expression_maxprobe") "to_csv")
                [Constant (CStr "Expression_AHBA_abagen_maxprobe.csv")]
                [("index", Constant (CBool false))]) ];
    Cell 182
      [ Shell ("head " ++ atlas_csv);
        Shell ("tail " ++ atlas_csv);
        Shell ("cp " ++ atlas_csv ++ " ./atlas-desikankilliany_copy.csv") ] ].

End Abagen.

(** ** The PyTorch notebook *)

Module Torch.
Import PyAst.

(** Abbreviations used by the transcription. *)
Definition int (z : Z) : expr := Constant (CInt z).
Definition flt (digits exp10 : Z) : expr := Constant (CFloat digits exp10).
Definition str (s : string) : expr := Constant (CStr s).
Definition call (f : expr) (args : list expr) : expr := Call f args [].
Definition torch_ (a : string) : expr := Attribute (Name "torch") a.
Definition nn_ (a : string) : expr := Attribute (Name "nn") a.
Definition plt_ (a : string) : expr := Attribute (Name "plt") a.
Definition self_ (a : string) : expr := Attribute (Name "self") a.
Definition method (obj : string) (m : string) (args : list expr) : expr :=
  Call (Attribute (Name obj) m) args [].
Definition neg (z : Z) : expr := UnaryOp "-" (int z).

(** [def curve(t)], lines 353-356. *)
Definition curve_def : stmt :=
  FunctionDef "curve" ["t"]
    [ Assign (Name "x")
        (BinOp (call (torch_ "sin") [Name "t"]) "-" (flt 5 (-1)));
      Assign (Name "y")
        (BinOp
           (BinOp (BinOp (call (torch_ "cos") [Name "t"]) "*" (int 2)) "+"
                  (call (torch_ "cos") [BinOp (int 2) "*" (Name "t")]))
           "+" (flt 75 (-2)));
      Return (Tuple [Name "x"; Name "y"]) ].

(** [def loss(t)], lines 378-380. *)
Definition loss_def : stmt :=
  FunctionDef "loss" ["t"]
    [ Assign (Tuple [Name "x"; Name "y"]) (call (Name "curve") [Name "t"]);
      Return
        (call (torch_ "sqrt")
           [BinOp (BinOp (BinOp (Name "x") "-" (int 0)) "**" (int 2)) "+"
                  (BinOp (BinOp (Name "y") "-" (int 0)) "**" (int 2))]) ].

(** [class MNISTDataset], lines 544-551. *)
Definition MNISTDataset_def : stmt :=
  ClassDef "MNISTDataset"
    [Attribute (Attribute (Attribute (Name "torch") "utils") "data") "Dataset"]
    [ FunctionDef "__init__" ["self"; "images"; "labels"]
        [ Assign (self_ "images") (method "images" "float" []);
          Assign (self_ "labels") (Name "labels") ];
      FunctionDef "__getitem__" ["self"; "ii"]
        [ Return (Tuple [Subscript (self_ "images") [Name "ii"];
                         Subscript (self_ "labels") [Name "ii"]]) ];
      FunctionDef "__len__" ["self"]
        [ Return (call (Name "len") [self_ "labels"]) ] ].

(** [class NeuralNetwork], lines 648-664. *)
Definition NeuralNetwork_def : stmt :=
  ClassDef "NeuralNetwork" [nn_ "Module"]
    [ FunctionDef "__init__" ["self"]
        [ Expr (Call (Attribute
                        (call (Name "super") [Name "NeuralNetwork"; Name "self"])
                        "__init__") [] []);
          Assign (self_ "flatten") (call (nn_ "Flatten") []);
          Assign (self_ "linear_relu_stack")
            (call (nn_ "Sequential")
               [ call (nn_ "Linear") [BinOp (int 28) "*" (int 28); int 512];
                 call (nn_ "ReLU") [];
                 call (nn_ "Linear") [int 512; int 512];
                 call (nn_ "ReLU") [];
                 call (nn_ "Linear") [int 512; int 10];
                 call (nn_ "ReLU") [] ]) ];
      FunctionDef "forward" ["self"; "x"]
        [ Assign (Name "x") (call (self_ "flatten") [Name "x"]);
          Assign (Name "logits") (call (self_ "linear_relu_stack") [Name "x"]);
          Return (Name "logits") ] ].

Definition linspace_call : expr :=
  call (torch_ "linspace")
    [int 0; BinOp (Attribute (Name "np") "pi") "*" (int 2); int 100].

Definition plot_axes : list stmt :=
  [ Expr (Call (plt_ "plot")
            [ListE [neg 3; int 3]; ListE [int 0; int 0]; str "k-"]
            [("lw", flt 5 (-1))]);
    Expr (Call (plt_ "plot")
            [ListE [int 0; int 0]; ListE [neg 3; int 3]; str "k-"]
            [("lw", flt 5 (-1))]) ].

Definition subplots (side : Z) : stmt :=
  Assign (Tuple [Name "fig"; Name "axs"])
    (Call (plt_ "subplots") [int 2; int 2]
       [("figsize", Tuple [int side; int side])]).

Definition zip_axes : expr :=
  call (Name "zip") [Name "axs"; Name "X_batch"; Name "y_batch"].

Definition load (path : string) : expr :=
  Call (torch_ "load") [str path] [("weights_only", Constant (CBool true))].

(** The code cells in order. *)
Definition cells : notebook :=
  [ Cell 266
      [ Import "torch" None;
        ImportFrom "torch" ["nn"];
        ImportFrom "torch.utils.data" ["DataLoader"];
        Import "matplotlib.pyplot" (Some "plt") ];
    Cell 298
      [ Assign (Name "u") (call (torch_ "zeros") [Tuple [int 10; int 3]]);
        Assign (Subscript (Name "u") [Slice; int 0]) (int 1);
        Assign (Name "u")
          (BinOp (BinOp (Name "u") "-" (flt 5 (-1))) "*" (flt 30 (-1)));
        Expr (call (Name "print") [Name "u"]) ];
    Cell 314
      [ Import "numpy" (Some "np");
        Assign (Name "a")
          (call (Attribute (Name "np") "zeros") [Tuple [int 10; int 3]]);
        Expr (call (torch_ "mean") [Name "a"]) ];
    Cell 330
      [ Assign (Name "a")
          (Call (Attribute (method "u" "detach" []) "numpy") [] []);
        Expr (call (Name "print") [call (Name "type") [Name "a"]]);
        Expr (call (Name "print") [Name "a"]) ];
    Cell 351
      ([ curve_def;
         Assign (Name "t") linspace_call;
         Assign (Tuple [Name "x"; Name "y"]) (call (Name "curve") [Name "t"]);
         Expr (call (plt_ "plot") [Name "x"; Name "y"; str "k-"]) ]
       ++ plot_axes);
    Cell 375
      [ loss_def;
        Assign (Name "t") (call (torch_ "tensor") [flt 15 (-1)]);
        Assign (Name "dist") (call (Name "loss") [Name "t"]);
        Expr (Name "dist") ];
    Cell 401
      [ Assign (Name "t")
          (Call (torch_ "tensor") [flt 15 (-1)]
             [("requires_grad", Constant (CBool true))]);
        Assign (Name "dist") (call (Name "loss") [Name "t"]);
        Expr (method "dist" "backward" []);
        Expr (Attribute (Name "t") "grad") ];
    Cell 424
      [ Assign (Name "t")
          (Call (torch_ "tensor") [flt 21 (-1)]
             [("requires_grad", Constant (CBool true))]);
        Assign (Name "optimizer")
          (Call (Attribute (torch_ "optim") "SGD") [ListE [Name "t"]]
             [("lr", flt 5 (-2))]);
        For (Name "step_number") (call (Name "range") [int 20])
          [ Expr (method "optimizer" "zero_grad" []);
            Assign (Name "dist") (call (Name "loss") [Name "t"]);
            Expr (call (Name "print")
                    [ str "Step number"; Name "step_number";
                      str "  t = "; call (Name "float") [Name "t"];
                      str "  loss = "; call (Name "float") [Name "dist"] ]);
            Expr (method "dist" "backward" []);
            Expr (method "optimizer" "step" []) ];
        Expr (call (Name "print") [Name "t"; call (Name "loss") [Name "t"]]) ];
    Cell 460
      ([ Assign (Tuple [Name "x0"; Name "y0"]) (call (Name "curve") [Name "t"]);
         Assign (Name "x0")
           (Call (Attribute (method "x0" "detach" []) "numpy") [] []);
         Assign (Name "y0")
           (Call (Attribute (method "y0" "detach" []) "numpy") [] []);
         Assign (Tuple [Name "x"; Name "y"])
           (call (Name "curve") [linspace_call]);
         Expr (call (plt_ "plot") [Name "x"; Name "y"; str "k-"]) ]
       ++ plot_axes
       ++ [ Expr (call (plt_ "plot") [Name "x0"; Name "y0"; str "r."]) ]);
    Cell 518
      [ Assign (Tuple [Name "training_labels"; Name "training_images"])
          (load "/home/jovyan/shared/benson-deep-learning/mnist_train.pt");
        Assign (Tuple [Name "test_labels"; Name "test_images"])
          (load "/home/jovyan/shared/benson-deep-learning/mnist_test.pt") ];
    Cell 544
      [ MNISTDataset_def;
        Assign (Name "training_data")
          (call (Name "MNISTDataset")
             [Name "training_images"; Name "training_labels"]);
        Assign (Name "test_data")
          (call (Name "MNISTDataset") [Name "test_images"; Name "test_labels"]) ];
    Cell 569
      [ Assign (Name "batch_size") (int 64);
        Assign (Name "train_dataloader")
          (Call (Name "DataLoader") [Name "training_data"]
             [("batch_size", Name "batch_size")]);
        Assign (Name "test_dataloader")
          (Call (Name "DataLoader") [Name "test_data"]
             [("batch_size", Name "batch_size")]);
        For (Tuple [Name "X"; Name "y"]) (Name "test_dataloader")
          [ Expr (call (Name "print")
                    [str "Shape of X [Batch-Size, Image-Channels, Height, Width]: "]);
            Expr (call (Name "print")
                    [ str "     "; Attribute (Name "X") "shape";
                      Attribute (Name "X") "dtype" ]);
            Expr (call (Name "print") [str "Shape of y [1 Label per Batch]: "]);
            Expr (call (Name "print")
                    [ str "     "; Attribute (Name "y") "shape";
                      Attribute (Name "y") "dtype" ]);
            Break ] ];
    Cell 608
      [ subplots 4;
        Assign (Name "axs") (method "axs" "flatten" []);
        For (Tuple [Name "X_batch"; Name "y_batch"]) (Name "train_dataloader")
          [ For (Tuple [Name "ax"; Name "X"; Name "y"]) zip_axes
              [ Expr (method "ax" "imshow" [Name "X"]);
                Expr (method "ax" "set_title" [method "y" "item" []]);
                Expr (method "ax" "axis" [str "off"]) ];
            Break ] ];
    Cell 647
      [ NeuralNetwork_def;
        Assign (Name "model") (call (Name "NeuralNetwork") []);
        Expr (call (Name "print") [Name "model"]) ];
    Cell 698
      [ Assign (Name "loss_fn") (call (nn_ "CrossEntropyLoss") []);
        Assign (Name "optimizer")
          (Call (Attribute (torch_ "optim") "SGD") [method "model" "parameters" []]
             [("lr", flt 1 (-4))]) ];
    Cell 715
      [ Assign (Name "size")
          (call (Name "len") [Attribute (Name "train_dataloader") "dataset"]);
        For (Tuple [Name "batch_num"; Tuple [Name "X"; Name "y"]])
          (call (Name "enumerate") [Name "train_dataloader"])
          [ Assign (Name "pred") (call (Name "model") [Name "X"]);
            Assign (Name "loss") (call (Name "loss_fn") [Name "pred"; Name "y"]);
            Expr (method "optimizer" "zero_grad" []);
            Expr (method "loss" "backward" []);
            Expr (method "optimizer" "step" []);
            If (Compare (BinOp (Name "batch_num") "%" (int 100)) "==" (int 0))
              [ Assign (Tuple [Name "loss"; Name "current"])
                  (Tuple [ method "loss" "item" [];
                           BinOp (Name "batch_num") "*"
                                 (call (Name "len") [Name "X"]) ]);
                Expr (call (Name "print")
                        [JoinedStr
                           [ str "loss: "; FormattedValue (Name "loss") ">7f";
                             str "  ["; FormattedValue (Name "current") ">5d";
                             str "/"; FormattedValue (Name "size") ">5d";
                             str "]" ]]) ]
              [] ] ];
    Cell 749
      [ subplots 6;
        Assign (Name "axs") (method "axs" "flatten" []);
        For (Tuple [Name "X_batch"; Name "y_batch"]) (Name "test_dataloader")
          [ If (Compare
                  (Call (Attribute (Attribute (Name "np") "random") "rand") [] [])
                  "<" (flt 9 (-1)))
              [ Continue ] [];
            For (Tuple [Name "ax"; Name "X"; Name "y"]) zip_axes
              [ Expr (method "ax" "imshow" [Name "X"]);
                Assign (Name "pred")
                  (call (Name "model")
                     [Subscript (Name "X") [Constant CNone; Slice]]);
                Assign (Name "label") (call (torch_ "argmax") [Name "pred"]);
                Assign (Name "y_name")
                  (call (Name "str") [method "y" "item" []]);
                Assign (Name "label_name")
                  (call (Name "str") [method "label" "item" []]);
                Expr (method "ax" "set_title"
                        [JoinedStr
                           [ str "Estimate: ";
                             FormattedValue (Name "label_name") "";
                             str "; True: ";
                             FormattedValue (Name "y_name") "" ]]);
                Expr (method "ax" "axis" [str "off"]) ];
            Break ] ] ].

End Torch.

(** The repository: both notebooks. *)
Definition repository : list PyAst.notebook := [Abagen.cells; Torch.cells].

Definition repository_code : list PyAst.stmt := flat_map PyAst.nb_code repository.

(** ** Exceptions *)

Module Exn.

(** The exceptions the modelled library operations raise. *)
Inductive exn : Type :=
| IndexError (msg : string)
| TypeError (msg : string)
| RuntimeError (msg : string).

(** The outcome of a Python call: a value, or a raised exception. *)
Inductive result (A : Type) : Type :=
| Ok (a : A)
| Raised (e : exn).

Arguments Ok {A} a.
Arguments Raised {A} e.

(** Sequencing: an exception raised by the first computation leaves the
    second unevaluated and is the outcome of the whole. *)
Definition bind {A B : Type} (m : result A) (k : A -> result B) : result B :=
  match m with
  | Ok a => k a
  | Raised e => Raised e
  end.

End Exn.

Notation "x <- m ;; k" := (Exn.bind m (fun x => k))
  (at level 61, m at next level, right associativity).

(** ** The curve and its loss (lines 353-356 and 378-380) *)

Module Curve.
Local Open Scope R_scope.

(** [curve(t)]: [x = sin(t) - 0.5], [y = cos(t)*2 + cos(2*t) + 0.75].
    Tensor arithmetic on a 0-dimensional tensor is taken over the
    reals. *)
Definition curve (t : R) : R * R :=
  let x := sin t - 0.5 in
  let y := cos t * 2 + cos (2 * t) + 0.75 in
  (x, y).

(** [loss(t)]: [sqrt((x - 0)**2 + (y - 0)**2)] for [(x, y) = curve(t)]. *)
Definition loss (t : R) : R :=
  let (x, y) := curve t in
  sqrt ((x - 0) ^ 2 + (y - 0) ^ 2).

(** Applied to a 1-dimensional tensor, as in [curve(torch.linspace(...))],
    the operations act element by element. *)
Definition curve_each (ts : list R) : list R * list R :=
  (map (fun t => fst (curve t)) ts, map (fun t => snd (curve t)) ts).

Definition loss_each (ts : list R) : list R := map loss ts.

End Curve.

(** ** Tensors, as far as the dataset wrapper uses them *)

Module Tensor.
Import Exn.

(** The three tensor operations [MNISTDataset] calls. *)
Class TensorLib (T : Type) : Type := {
  t_float : T -> result T;            (* [Tensor.float()] *)
  t_getitem : T -> Z -> result T;     (* [Tensor.__getitem__] at an integer *)
  t_len : T -> result Z               (* [len(tensor)] *)
}.

(** An element: of an integer dtype or of a floating dtype. *)
Inductive scalar : Type :=
| SInt (z : Z)
| SFloat (q : Q).

(** A tensor is a single element (0-dimensional) or a sequence of
    sub-tensors along its leading dimension. *)
Inductive tensor : Type :=
| Item (s : scalar)
| Rows (rs : list tensor).

Definition to_float (s : scalar) : scalar :=
  match s with
  | SInt z => SFloat (inject_Z z)
  | SFloat q => SFloat q
  end.

(** [t.float()] converts every element. *)
Fixpoint float_ (t : tensor) : tensor :=
  match t with
  | Item s => Item (to_float s)
  | Rows rs => Rows (map float_ rs)
  end.

(** [len(t)]: the size of the leading dimension. *)
Definition len (t : tensor) : result Z :=
  match t with
  | Item _ => Raised (TypeError "len() of a 0-d tensor")
  | Rows rs => Ok (Z.of_nat (List.length rs))
  end.

(** [t[ii]] for an integer [ii]: indices [-n .. n-1] are in range for a
    leading dimension of size [n], negative ones counting from the end. *)
Definition getitem (t : tensor) (ii : Z) : result tensor :=
  match t with
  | Item _ => Raised (IndexError "invalid index of a 0-dim tensor")
  | Rows rs =>
      let n := Z.of_nat (List.length rs) in
      if (- n <=? ii)%Z && (ii <? n)%Z then
        match nth_error rs (Z.to_nat (if (ii <? 0)%Z then ii + n else ii)%Z) with
        | Some r => Ok r
        | None => Raised (IndexError "index out of range")
        end
      else Raised (IndexError "index out of range")
  end.

#[export] Instance list_tensors : TensorLib tensor := {
  t_float t := Ok (float_ t);
  t_getitem := getitem;
  t_len := len
}.

(** [ii] is a valid index into the leading dimension of [t]. *)
Definition in_range (t : tensor) (ii : Z) : Prop :=
  match t with
  | Item _ => False
  | Rows rs => (- Z.of_nat (List.length rs) <= ii < Z.of_nat (List.length rs))%Z
  end.

End Tensor.

(** ** [MNISTDataset] (lines 544-551) *)

Module MNISTDataset.
Import Exn Tensor.

Section Methods.
Context {T : Type} `{TensorLib T}.

(** The instance attributes set by [__init__]. *)
Record t : Type := Build { images : T; labels : T }.

(** [__init__(self, images, labels)] *)
Definition __init__ (images_ labels_ : T) : result t :=
  f <- t_float images_ ;;
  Ok {| images := f; labels := labels_ |}.

(** [__getitem__(self, ii)]: the tuple is built left to right. *)
Definition __getitem__ (self : t) (ii : Z) : result (T * T) :=
  a <- t_getitem (images self) ii ;;
  b <- t_getitem (labels self) ii ;;
  Ok (a, b).

(** [__len__(self)] *)
Definition __len__ (self : t) : result Z := t_len (labels self).

End Methods.

Arguments t T : clear implicits.

End MNISTDataset.

(** ** [NeuralNetwork] (lines 648-664) *)

Module NeuralNetwork.
Import Exn.

(** The element types of the tensors that occur: the integer types of
    image files and labels, and the two floating types. *)
Inductive dtype : Type :=
| UInt8
| Int64
| Float32
| Float64.

Definition is_float32 (d : dtype) : bool :=
  match d with
  | Float32 => true
  | _ => false
  end.

(** The name PyTorch prints for an element type. *)
Definition dtype_name (d : dtype) : string :=
  match d with
  | UInt8 => "Byte"
  | Int64 => "Long"
  | Float32 => "Float"
  | Float64 => "Double"
  end.

(** An element: a finite value (the rational number it stands for), an
    infinity, or NaN. *)
Inductive float : Type :=
| Finite (q : Q)
| PosInf
| NegInf
| NaN.

(** Addition and multiplication of elements.  Floating-point arithmetic
    rounds and overflows; what is proved of the network holds whatever
    these two operations return, so they are an interface. *)
Class Arithmetic : Type := {
  fadd : float -> float -> float;
  fmul : float -> float -> float
}.

(** Arithmetic without rounding, with the IEEE rules for infinities and
    NaN. *)
Definition exact_add (a b : float) : float :=
  match a, b with
  | NaN, _ | _, NaN => NaN
  | PosInf, NegInf | NegInf, PosInf => NaN
  | PosInf, _ | _, PosInf => PosInf
  | NegInf, _ | _, NegInf => NegInf
  | Finite x, Finite y => Finite (x + y)
  end.

Definition sign (a : float) : comparison :=
  match a with
  | Finite q => (0 ?= q)%Q
  | PosInf => Lt
  | NegInf => Gt
  | NaN => Eq
  end.

Definition exact_mul (a b : float) : float :=
  match a, b with
  | NaN, _ | _, NaN => NaN
  | Finite x, Finite y => Finite (x * y)
  | _, _ =>
      match sign a, sign b with
      | Eq, _ | _, Eq => NaN
      | Lt, Lt | Gt, Gt => PosInf
      | Lt, Gt | Gt, Lt => NegInf
      end
  end.

#[export] Instance exact : Arithmetic := {
  fadd := exact_add;
  fmul := exact_mul
}.

(** Rows of elements: an image [[H, W]], or the rows of a batch of
    flattened samples [[N, C]]. *)
Definition plane : Type := list (list float).

(** A batch of flattened samples, [[N, C]], and a batch of images,
    [[N, H, W]], each with its element type.  A tensor carries its
    shape: the number of samples is the number of rows or images held,
    the other dimensions are recorded, since an empty batch has no
    sample to read them from. *)
Record matrix : Type := Matrix {
  matrix_dtype : dtype;
  matrix_cols : nat;
  matrix_rows : plane
}.

Record images : Type := Images {
  images_dtype : dtype;
  images_height : nat;
  images_width : nat;
  images_planes : list plane
}.

Definition has_shape2 (x : plane) (n c : nat) : bool :=
  (List.length x =? n)%nat && forallb (fun r => (List.length r =? c)%nat) x.

Definition has_shape3 (x : list plane) (n h w : nat) : bool :=
  (List.length x =? n)%nat && forallb (fun im => has_shape2 im h w) x.

(** A batch is of shape [[n, c]], or [[n, h, w]]: that is the shape it
    carries, and its elements are laid out so. *)
Definition matrix_shape (x : matrix) (n c : nat) : bool :=
  (matrix_cols x =? c)%nat && has_shape2 (matrix_rows x) n c.

Definition images_shape (x : images) (n h w : nat) : bool :=
  (images_height x =? h)%nat && (images_width x =? w)%nat
  && has_shape3 (images_planes x) n h w.

(** The parameters of an [nn.Linear]: a float32 weight of shape
    [[out_features, in_features]] and a float32 bias of shape
    [[out_features]]. *)
Record Linear : Type := {
  in_features : nat;
  out_features : nat;
  weight : plane;
  bias : list float
}.

(** [nn.Linear(in_features, out_features)].  The constructor allocates
    the parameters with the shapes above; their values (random at
    first, then changed by training) are read from [w] and [b]. *)
Definition nn_Linear (in_f out_f : nat) (w : nat -> nat -> float)
    (b : nat -> float) : Linear :=
  {| in_features := in_f;
     out_features := out_f;
     weight := map (fun j => map (w j) (seq 0 in_f)) (seq 0 out_f);
     bias := map b (seq 0 out_f) |}.

(** A number in decimal, as in the messages of the library. *)
Fixpoint digits (u : Decimal.uint) : string :=
  match u with
  | Decimal.Nil => ""
  | Decimal.D0 u' => String "0" (digits u')
  | Decimal.D1 u' => String "1" (digits u')
  | Decimal.D2 u' => String "2" (digits u')
  | Decimal.D3 u' => String "3" (digits u')
  | Decimal.D4 u' => String "4" (digits u')
  | Decimal.D5 u' => String "5" (digits u')
  | Decimal.D6 u' => String "6" (digits u')
  | Decimal.D7 u' => String "7" (digits u')
  | Decimal.D8 u' => String "8" (digits u')
  | Decimal.D9 u' => String "9" (digits u')
  end.

Definition show_nat (n : nat) : string := digits (Nat.to_uint n).

(** The two errors of the matrix product behind [Linear.forward]. *)
Definition dtype_error (d : dtype) : exn :=
  RuntimeError ("mat1 and mat2 must have the same dtype, but got "
                  ++ dtype_name d ++ " and Float").

Definition shape_error (n k in_f out_f : nat) : exn :=
  RuntimeError ("mat1 and mat2 shapes cannot be multiplied ("
                  ++ show_nat n ++ "x" ++ show_nat k ++ " and "
                  ++ show_nat in_f ++ "x" ++ show_nat out_f ++ ")").

(** The number of columns of an image, read off its first row (an
    image without rows has no element, whatever its width). *)
Definition width (x : plane) : nat :=
  match x with
  | [] => O
  | r :: _ => List.length r
  end.

Section Forward.
Context {arithmetic : Arithmetic}.

Definition dot (a b : list float) : float :=
  fold_right fadd (Finite 0) (map (fun p => fmul (fst p) (snd p)) (combine a b)).

(** [Linear.forward]: [x @ weight.T + bias].  The product first asks
    for the element type of the weight, float32, and then for
    [in_features] columns. *)
Definition Linear_forward (l : Linear) (x : matrix) : result matrix :=
  if negb (is_float32 (matrix_dtype x)) then
    Raised (dtype_error (matrix_dtype x))
  else if (matrix_cols x =? in_features l)%nat
  then Ok {| matrix_dtype := Float32;
             matrix_cols := out_features l;
             matrix_rows :=
               map (fun r =>
                      map (fun wb => fadd (dot r (fst wb)) (snd wb))
                          (combine (weight l) (bias l)))
                   (matrix_rows x) |}
  else Raised (shape_error (List.length (matrix_rows x)) (matrix_cols x)
                 (in_features l) (out_features l)).

(** [nn.ReLU]: [max(0, x)] on every element; NaN stays NaN. *)
Definition relu (v : float) : float :=
  match v with
  | Finite q => Finite (Qmax 0 q)
  | PosInf => PosInf
  | NegInf => Finite 0
  | NaN => NaN
  end.

Definition ReLU_forward (x : matrix) : matrix :=
  {| matrix_dtype := matrix_dtype x;
     matrix_cols := matrix_cols x;
     matrix_rows := map (map relu) (matrix_rows x) |}.

(** [nn.Flatten()]: dimension 0 is kept, the others are merged. *)
Definition Flatten_forward (x : images) : matrix :=
  {| matrix_dtype := images_dtype x;
     matrix_cols := images_height x * images_width x;
     matrix_rows := map (@List.concat float) (images_planes x) |}.

Inductive layer : Type :=
| LinearLayer (l : Linear)
| ReLULayer.

Definition layer_forward (m : layer) (x : matrix) : result matrix :=
  match m with
  | LinearLayer l => Linear_forward l x
  | ReLULayer => Ok (ReLU_forward x)
  end.

(** [nn.Sequential]: the layers are applied in order. *)
Fixpoint Sequential_forward (ms : list layer) (x : matrix) : result matrix :=
  match ms with
  | [] => Ok x
  | m :: ms' => y <- layer_forward m x ;; Sequential_forward ms' y
  end.

(** Values of the parameters of the three linear layers. *)
Record parameters : Type := {
  w1 : nat -> nat -> float; b1 : nat -> float;
  w2 : nat -> nat -> float; b2 : nat -> float;
  w3 : nat -> nat -> float; b3 : nat -> float
}.

(** The instance attributes set by [__init__]. *)
Record t : Type := Build {
  flatten : images -> matrix;
  linear_relu_stack : list layer
}.

(** [__init__(self)] *)
Definition __init__ (p : parameters) : t :=
  {| flatten := Flatten_forward;
     linear_relu_stack :=
       [ LinearLayer (nn_Linear (28 * 28) 512 (w1 p) (b1 p));
         ReLULayer;
         LinearLayer (nn_Linear 512 512 (w2 p) (b2 p));
         ReLULayer;
         LinearLayer (nn_Linear 512 10 (w3 p) (b3 p));
         ReLULayer ] |}.

(** [forward(self, x)] *)
Definition forward (self : t) (x : images) : result matrix :=
  let x := flatten self x in
  logits <- Sequential_forward (linear_relu_stack self) x ;;
  Ok logits.

End Forward.

(** An element is at least zero; NaN is not. *)
Definition at_least_zero (v : float) : Prop :=
  match v with
  | Finite q => (0 <= q)%Q
  | PosInf => True
  | NegInf | NaN => False
  end.

(** Every element of a batch is at least zero. *)
Definition nonnegative (x : plane) : Prop :=
  Forall (Forall at_least_zero) x.

(** An element is not below zero: it is at least zero, or NaN. *)
Definition not_negative (v : float) : Prop :=
  match v with
  | Finite q => (0 <= q)%Q
  | PosInf | NaN => True
  | NegInf => False
  end.

(** No element of a batch is below zero. *)
Definition never_negative (x : plane) : Prop :=
  Forall (Forall not_negative) x.

End NeuralNetwork.

(** ** Running a straight-line notebook *)

Module Run.
Import PyAst.

(** The steps of a run that can be observed: a call (of a function, or
    of [__getitem__] and [__setitem__] through a subscript, or of the
    import machinery), the binding of a name, a shell line. *)
Inductive op : Type :=
| OpCall (callee : string)
| OpBind (var : string)
| OpShell (command : string).

(** The steps of evaluating an expression, in Python's order: callee,
    positional arguments, keyword arguments, then the call itself. *)
Fixpoint expr_ops (e : expr) : list op :=
  match e with
  | Name _ | Constant _ | Slice => []
  | Attribute v _ => expr_ops v
  | Subscript v ix => expr_ops v ++ flat_map expr_ops ix ++ [OpCall (render e)]
  | Call f args kws =>
      expr_ops f ++ flat_map expr_ops args
        ++ flat_map (fun kw => expr_ops (snd kw)) kws ++ [OpCall (render f)]
  | BinOp l _ r => expr_ops l ++ expr_ops r
  | Compare l _ r => expr_ops l ++ expr_ops r
  | UnaryOp _ v => expr_ops v
  | Tuple es | ListE es | JoinedStr es => flat_map expr_ops es
  | FormattedValue v _ => expr_ops v
  end.

(** The steps of storing into an assignment target. *)
Fixpoint target_ops (t : expr) : list op :=
  match t with
  | Name x => [OpBind x]
  | Tuple es | ListE es => flat_map target_ops es
  | Subscript v ix => expr_ops v ++ flat_map expr_ops ix ++ [OpCall (render t)]
  | Attribute v _ => expr_ops v
  | _ => []
  end.

(** The steps of a simple statement.  Compound statements and jumps
    have no fixed sequence of steps and are not covered. *)
Definition stmt_ops (s : stmt) : option (list op) :=
  match s with
  | Import m None => Some [OpCall ("import " ++ m); OpBind (first_component m)]
  | Import m (Some a) => Some [OpCall ("import " ++ m); OpBind a]
  | ImportFrom m names => Some (OpCall ("import " ++ m) :: map OpBind names)
  | Assign t v => Some (expr_ops v ++ target_ops t)
  | Expr v => Some (expr_ops v)
  | FunctionDef n _ _ => Some [OpBind n]
  | Pass => Some []
  | Shell c => Some [OpShell c]
  | _ => None
  end.

Fixpoint code_ops (code : list stmt) : option (list op) :=
  match code with
  | [] => Some []
  | s :: rest =>
      match stmt_ops s, code_ops rest with
      | Some a, Some b => Some (a ++ b)
      | _, _ => None
      end
  end.

Definition nb_ops (nb : notebook) : option (list op) := code_ops (nb_code nb).

(** What is observed of a run. *)
Inductive event : Type :=
| EvCall (callee : string)      (* the call is made *)
| EvReturn (callee : string)    (* the call completes *)
| EvBind (var : string)
| EvShell (command : string)
| EvRaise.                      (* an exception ends the run *)

(** What happens at a step: it goes through, an exception is raised
    before it takes place (while its operands are looked up), or, for a
    call, an exception is raised inside the callee. *)
Inductive fate : Type :=
| Proceed
| RaiseBefore
| RaiseInside.

(** The cells run top to bottom until the first exception; [fates]
    tells what happens at each step. *)
Fixpoint run (fates : nat -> fate) (k : nat) (ops : list op) : list event :=
  match ops with
  | [] => []
  | o :: rest =>
      match fates k, o with
      | RaiseBefore, _ => [EvRaise]
      | RaiseInside, OpCall c => [EvCall c; EvRaise]
      | RaiseInside, _ => [EvRaise]
      | Proceed, OpCall c => EvCall c :: EvReturn c :: run fates (S k) rest
      | Proceed, OpBind v => EvBind v :: run fates (S k) rest
      | Proceed, OpShell c => EvShell c :: run fates (S k) rest
      end
  end.



Definition event_eqb (a b : event) : bool :=
  match a, b with
  | EvCall x, EvCall y | EvReturn x, EvReturn y
  | EvBind x, EvBind y | EvShell x, EvShell y => String.eqb x y
  | EvRaise, EvRaise => true
  | _, _ => false
  end.



Fixpoint check_precedes (a b : event) (seen : bool) (tr : list event) : bool :=
  match tr with
  | [] => true
  | e :: tr' =>
      (negb (event_eqb e b) || seen)
        && check_precedes a b (seen || event_eqb e a) tr'
  end.



(** A run of a whole notebook, from its first cell. *)
Definition nb_run (fates : nat -> fate) (nb : notebook) : option (list event) :=
  option_map (run fates 0) (nb_ops nb).


End Run.

(** ** Meaning of the arithmetic fragment

    An evaluator for the part of the syntax [curve] and [loss] are
    written in, over the reals.  It relates the transcribed definitions
    to the functions of module [Curve]. *)

Module Denote.
Import PyAst.
Local Open Scope R_scope.

Inductive value : Type :=
| VNum (r : R)
| VTuple (vs : list value).

Definition env : Type := list (string * value).

Fixpoint lookup (x : string) (rho : env) : option value :=
  match rho with
  | [] => None
  | (y, v) :: rho' => if String.eqb x y then Some v else lookup x rho'
  end.

Definition constant_value (c : constant) : option R :=
  match c with
  | CInt z => Some (IZR z)
  | CFloat d e => Some (IZR d * powerRZ 10 e)
  | _ => None
  end.

Definition binop (op : string) (a b : R) : option R :=
  if String.eqb op "+" then Some (a + b)
  else if String.eqb op "-" then Some (a - b)
  else if String.eqb op "*" then Some (a * b)
  else None.

(** The element-wise library functions the two definitions call. *)
Definition torch_function (name : string) : option (R -> R) :=
  if String.eqb name "torch.sin" then Some sin
  else if String.eqb name "torch.cos" then Some cos
  else if String.eqb name "torch.sqrt" then Some sqrt
  else None.

Section Eval.
(** The functions defined earlier in the notebook. *)
Variable defined : string -> option (R -> option value).

Fixpoint eval (rho : env) (e : expr) : option value :=
  match e with
  | Name x => lookup x rho
  | Constant c => option_map VNum (constant_value c)
  | BinOp l op r =>
      match eval rho l with
      | Some (VNum a) =>
          if String.eqb op "**" then
            match r with
            | Constant (CInt z) =>
                if (0 <=? z)%Z then Some (VNum (a ^ Z.to_nat z)) else None
            | _ => None
            end
          else
            match eval rho r with
            | Some (VNum b) => option_map VNum (binop op a b)
            | _ => None
            end
      | _ => None
      end
  | Call f [arg] [] =>
      match eval rho arg with
      | Some (VNum a) =>
          match torch_function (render f) with
          | Some g => Some (VNum (g a))
          | None =>
              match defined (render f) with
              | Some g => g a
              | None => None
              end
          end
      | _ => None
      end
  | Tuple es =>
      option_map VTuple
        ((fix eval_all (es : list expr) : option (list value) :=
            match es with
            | [] => Some []
            | e :: es' =>
                match eval rho e, eval_all es' with
                | Some v, Some vs => Some (v :: vs)
                | _, _ => None
                end
            end) es)
  | _ => None
  end.

(** Binding an assignment target: a name, or a tuple of names matched
    against a tuple of the same length. *)
Fixpoint bind_names (ts : list expr) (vs : list value) (rho : env) : option env :=
  match ts, vs with
  | [], [] => Some rho
  | Name x :: ts', v :: vs' => bind_names ts' vs' ((x, v) :: rho)
  | _, _ => None
  end.

Definition bind_target (t : expr) (v : value) (rho : env) : option env :=
  match t, v with
  | Name x, _ => Some ((x, v) :: rho)
  | Tuple ts, VTuple vs => bind_names ts vs rho
  | _, _ => None
  end.

(** A function body: assignments, ended by a [return]. *)
Fixpoint exec (rho : env) (body : list stmt) : option value :=
  match body with
  | Assign t v :: rest =>
      match eval rho v with
      | Some x =>
          match bind_target t x rho with
          | Some rho' => exec rho' rest
          | None => None
          end
      | None => None
      end
  | Return v :: _ => eval rho v
  | _ => None
  end.

(** A call of a one-parameter function definition. *)
Definition apply_def (d : stmt) (a : R) : option value :=
  match d with
  | FunctionDef _ [p] body => exec [(p, VNum a)] body
  | _ => None
  end.

End Eval.

Definition curve_meaning (t : R) : option value :=
  apply_def (fun _ => None) Torch.curve_def t.

Definition loss_meaning (t : R) : option value :=
  apply_def
    (fun n => if String.eqb n "curve" then Some curve_meaning else None)
    Torch.loss_def t.

(** The one-parameter functions defined at cell level, in the order of
    the code, each with its meaning: its body evaluated with the
    functions defined before it. *)
Fixpoint meanings (defined : string -> option (R -> option value))
    (code : list stmt) : list (string * (R -> option value)) :=
  match code with
  | [] => []
  | (FunctionDef n [_] _ as d) :: rest =>
      (n, apply_def defined d)
        :: meanings
             (fun x => if String.eqb x n then Some (apply_def defined d)
                       else defined x)
             rest
  | _ :: rest => meanings defined rest
  end.

Definition nb_meanings (nb : notebook) : list (string * (R -> option value)) :=
  meanings (fun _ => None) (nb_code nb).

End Denote.

(** ** Logic of the notebooks' own *)

Module Originality.
Import PyAst.

(** An expression applies no operator of its own: it is built from
    names, constants, attributes, subscripts, tuples, lists and calls. *)
Fixpoint operator_free (e : expr) : bool :=
  match e with
  | Name _ | Constant _ | Slice => true
  | Attribute v _ => operator_free v
  | Subscript v ix => operator_free v && forallb operator_free ix
  | Call f args kws =>
      operator_free f && forallb operator_free args
        && forallb (fun kw => operator_free (snd kw)) kws
  | Tuple es | ListE es => forallb operator_free es
  | BinOp _ _ _ | UnaryOp _ _ | Compare _ _ _
  | JoinedStr _ | FormattedValue _ _ => false
  end.

(** A statement that only hands work on: an import, a shell line, or an
    operator-free expression, evaluated or bound to variables. *)
Definition delegating (s : stmt) : bool :=
  match s with
  | Import _ _ | ImportFrom _ _ | Shell _ => true
  | Assign t v => plain_target t && operator_free v
  | Expr v => operator_free v
  | _ => false
  end.

(** The names a statement imports, and the variables it assigns. *)
Definition imported (s : stmt) : list string :=
  match s with
  | Import m None => [first_component m]
  | Import _ (Some a) => [a]
  | ImportFrom _ names => names
  | _ => []
  end.

Definition assigned (s : stmt) : list string :=
  match s with
  | Assign t _ => target_names t
  | _ => []
  end.

(** Every call of the notebook is rooted at a name it imports or at a
    variable it has assigned. *)
Definition calls_rooted_in_libraries (nb : notebook) : bool :=
  forallb
    (fun r => existsb (String.eqb r)
                (flat_map imported (nb_code nb) ++ flat_map assigned (nb_code nb)))
    (nb_roots nb).

End Originality.

(** ** Sample data *)

Module Samples.
Import Tensor.

(** Two 2x2 images of an integer dtype, and their two labels. *)
Definition two_images : tensor :=
  Rows [ Rows [Rows [Item (SInt 0); Item (SInt 255)];
               Rows [Item (SInt 17); Item (SInt 3)]];
         Rows [Rows [Item (SInt 1); Item (SInt 2)];
               Rows [Item (SInt 3); Item (SInt 4)]] ].

Definition two_labels : tensor := Rows [Item (SInt 7); Item (SInt 9)].

Definition two_samples : MNISTDataset.t tensor :=
  {| MNISTDataset.images := float_ two_images;
     MNISTDataset.labels := two_labels |}.

(** All parameters zero, a blank 28x28 image, and batches of that one
    image: as float32, and as the bytes of an image file. *)
Definition zero : NeuralNetwork.float := NeuralNetwork.Finite 0.

Definition zero_parameters : NeuralNetwork.parameters :=
  {| NeuralNetwork.w1 := fun _ _ => zero; NeuralNetwork.b1 := fun _ => zero;
     NeuralNetwork.w2 := fun _ _ => zero; NeuralNetwork.b2 := fun _ => zero;
     NeuralNetwork.w3 := fun _ _ => zero; NeuralNetwork.b3 := fun _ => zero |}.

Definition blank_image : NeuralNetwork.plane := repeat (repeat zero 28) 28.

Definition blank_batch : NeuralNetwork.images :=
  {| NeuralNetwork.images_dtype := NeuralNetwork.Float32;
     NeuralNetwork.images_height := 28;
     NeuralNetwork.images_width := 28;
     NeuralNetwork.images_planes := [blank_image] |}.

Definition byte_batch : NeuralNetwork.images :=
  {| NeuralNetwork.images_dtype := NeuralNetwork.UInt8;
     NeuralNetwork.images_height := 28;
     NeuralNetwork.images_width := 28;
     NeuralNetwork.images_planes := [blank_image] |}.

(** A float32 batch of one 28x28 image whose elements are all NaN. *)
Definition nan_batch : NeuralNetwork.images :=
  {| NeuralNetwork.images_dtype := NeuralNetwork.Float32;
     NeuralNetwork.images_height := 28;
     NeuralNetwork.images_width := 28;
     NeuralNetwork.images_planes :=
       [repeat (repeat NeuralNetwork.NaN 28) 28] |}.

(** An empty float32 batch of 5x5 images. *)
Definition empty_batch : NeuralNetwork.images :=
  {| NeuralNetwork.images_dtype := NeuralNetwork.Float32;
     NeuralNetwork.images_height := 5;
     NeuralNetwork.images_width := 5;
     NeuralNetwork.images_planes := [] |}.

End Samples.

(** ** The specification's statements

    The properties the specification words, stated over the definitions
    above so that they can be compared with what the code does. *)

Module Spec.
Import PyAst.

(** A function "computes a result with its own mathematical
    specification" when, on every real argument, its body evaluates by
    real arithmetic and elementary functions to a value: its meaning is
    a function on the reals. *)
Definition has_specification (m : R -> option Denote.value) : Prop :=
  exists f : R -> Denote.value, forall t, m t = Some (f t).

(** "No function defined in the notebooks computes a result with its
    own mathematical specification". *)
Definition no_specified_function : Prop :=
  forall nb name m,
    In nb repository ->
    In (name, m) (Denote.nb_meanings nb) ->
    ~ has_specification m.

(** "Every cell's computation is equivalent to a straight-line
    (branch-free, loop-free) sequence". *)
Definition all_cells_straight_line : Prop :=
  forall nb c, In nb repository -> In c nb -> straight_line c = true.

(** "Dataset wrapping and model definition do not introduce classes
    defined by this repository". *)
Definition no_own_classes : Prop :=
  forall nb, In nb repository -> nb_classes nb = [].

(** "The Euclidean distance" between two points of the plane. *)
Definition euclidean_distance (p q : R * R) : R :=
  sqrt ((fst p - fst q) ^ 2 + (snd p - snd q) ^ 2).

(** "For every batch input x of shape [N, 28, 28], forward(x) returns a
    tensor of shape [N, 10], and every component of the returned tensor
    is nonnegative". *)
Definition forward_always_nonnegative : Prop :=
  forall (arithmetic : NeuralNetwork.Arithmetic)
         (p : NeuralNetwork.parameters) (x : NeuralNetwork.images) (N : nat),
    NeuralNetwork.images_shape x N 28 28 = true ->
    exists logits,
      NeuralNetwork.forward (NeuralNetwork.__init__ p) x = Exn.Ok logits
      /\ NeuralNetwork.matrix_shape logits N 10 = true
      /\ NeuralNetwork.nonnegative (NeuralNetwork.matrix_rows logits).

End Spec.

(** * Further code of the notebooks *)

(** ** The estimate of the evaluation cell (lines 763-765) *)

Module Predict.
Import Exn NeuralNetwork.

(** [a < b] on rationals. *)
Definition Qltb (a b : Q) : bool := negb (Qle_bool b a).

(** [a < b] in the order [torch.argmax] scans by: minus infinity, the
    finite values, plus infinity, and NaN above them all; two NaNs are
    level. *)
Definition below (a b : float) : bool :=
  match a, b with
  | NaN, _ => false
  | _, NaN => true
  | PosInf, _ => false
  | _, PosInf => true
  | NegInf, NegInf => false
  | NegInf, Finite _ => true
  | Finite _, NegInf => false
  | Finite x, Finite y => Qltb x y
  end.

(** [a] is strictly under [b], and [a] is not over [b], in that
    order. *)
Definition under (a b : float) : Prop := below a b = true.
Definition not_over (a b : float) : Prop := below b a = false.

(** Scanning for the largest element: [best] at position [best_i] is
    the largest seen so far, [i] is the position of the head of [l].  A
    later element replaces it only when strictly larger, so the first
    of several largest elements wins. *)
Fixpoint argmax_from (best_i : nat) (best : float) (i : nat) (l : list float)
  : nat :=
  match l with
  | [] => best_i
  | q :: l' =>
      if below best q then argmax_from i q (S i) l'
      else argmax_from best_i best (S i) l'
  end.

(** [torch.argmax(t)] without a dimension: the position of the largest
    element of the flattened tensor; an empty tensor is refused. *)
Definition argmax (flat : list float) : result nat :=
  match flat with
  | [] =>
      Raised (IndexError
                "argmax(): Expected reduction dim to be specified for input.numel() == 0")
  | q :: l => Ok (argmax_from 0 q 1 l)
  end.

(** [X[None,:]]: a batch holding the single image [X], of the element
    type [d] of [X] and of its height and width. *)
Definition unsqueeze (d : dtype) (X : plane) : images :=
  {| images_dtype := d;
     images_height := List.length X;
     images_width := width X;
     images_planes := [X] |}.

(** [pred = model(X[None,:]); label = torch.argmax(pred)] *)
Definition estimate {arithmetic : Arithmetic} (model : NeuralNetwork.t)
    (d : dtype) (X : plane) : result nat :=
  pred <- forward model (unsqueeze d X) ;;
  argmax (List.concat (matrix_rows pred)).

End Predict.

(** ** Reading a dataset in order *)

Module Traverse.
Import Exn Tensor.

(** [[f(i) for i in indices]], stopping at the first exception. *)
Fixpoint for_each {A : Type} (f : Z -> result A) (indices : list Z)
  : result (list A) :=
  match indices with
  | [] => Ok []
  | i :: rest =>
      a <- f i ;;
      others <- for_each f rest ;;
      Ok (a :: others)
  end.

(** [range(n)] *)
Definition range (n : Z) : list Z := map Z.of_nat (seq 0 (Z.to_nat n)).

(** [[dataset[i] for i in range(len(dataset))]]: the samples as a
    sequential reader, such as a data loader without shuffling, gets
    them. *)
Definition samples (dataset : MNISTDataset.t tensor)
  : result (list (tensor * tensor)) :=
  n <- MNISTDataset.__len__ dataset ;;
  for_each (MNISTDataset.__getitem__ dataset) (range n).

(** The sub-tensors along the leading dimension. *)
Definition rows (t : tensor) : list tensor :=
  match t with
  | Item _ => []
  | Rows rs => rs
  end.

End Traverse.

(** ** Cells with loops

    The loop cells are embedded as functions that pass the state of the
    session along and may end in an exception.  The state is kept when
    an exception is raised: what was printed and updated before it
    stays. *)

Module Session.
Import Exn.

(** A computation over a state [S]: the state after it, and its
    outcome. *)
Definition M (S A : Type) : Type := S -> S * result A.

Definition ret {S A : Type} (a : A) : M S A := fun s => (s, Ok a).

Definition then_ {S A B : Type} (m : M S A) (k : A -> M S B) : M S B :=
  fun s =>
    let (s', r) := m s in
    match r with
    | Ok a => k a s'
    | Raised e => (s', Raised e)
    end.

(** A call whose outcome does not depend on the state. *)
Definition pure_call {S A : Type} (r : result A) : M S A := fun s => (s, r).

End Session.

Notation "x <~ m ;; k" := (Session.then_ m (fun x => k))
  (at level 61, m at next level, right associativity).

(** ** The training loop (lines 716-733) *)

Module Training.
Import Exn Session.

(** A status line: [loss: {loss}  [{current}/{size}]]. *)
Record status : Type := Status {
  loss_value : Q;
  current : nat;
  size : nat
}.

Section Loop.
(** The state of the library (parameters, gradients, optimizer), the
    batches and the values passed between the calls. *)
Context {L Batch Labels Pred Loss : Type}.

(** The session: the library state and the lines printed so far. *)
Definition session : Type := L * list status.

Variable model : Batch -> M L Pred.             (* [model(X)] *)
Variable loss_fn : Pred -> Labels -> M L Loss.  (* [loss_fn(pred, y)] *)
Variable zero_grad : M L unit.                  (* [optimizer.zero_grad()] *)
Variable backward : Loss -> M L unit.           (* [loss.backward()] *)
Variable step : M L unit.                       (* [optimizer.step()] *)
Variable item : Loss -> M L Q.                  (* [loss.item()] *)
Variable len : Batch -> nat.                    (* [len(X)] *)

(** A library call, within the session. *)
Definition call {A : Type} (m : M L A) : M session A :=
  fun s =>
    let (l', r) := m (fst s) in
    ((l', snd s), r).

Definition print (line : status) : M session unit :=
  fun s => ((fst s, snd s ++ [line]), Ok tt).

(** The body of the loop, for batch number [batch_num]. *)
Definition train_batch (size_ batch_num : nat) (X : Batch) (y : Labels)
  : M session unit :=
  pred <~ call (model X) ;;
  loss <~ call (loss_fn pred y) ;;
  _ <~ call zero_grad ;;
  _ <~ call (backward loss) ;;
  _ <~ call step ;;
  if (batch_num mod 100 =? 0)%nat then
    v <~ call (item loss) ;;
    print {| loss_value := v; current := batch_num * len X; size := size_ |}
  else ret tt.

(** [for (batch_num, (X, y)) in enumerate(train_dataloader)], from
    batch number [batch_num] on. *)
Fixpoint train_from (size_ batch_num : nat) (batches : list (Batch * Labels))
  : M session unit :=
  match batches with
  | [] => ret tt
  | (X, y) :: rest =>
      _ <~ train_batch size_ batch_num X y ;;
      train_from size_ (S batch_num) rest
  end.

(** The loop of the cell; [enumerate] counts from zero. *)
Definition train (size_ : nat) (batches : list (Batch * Labels))
  : M session unit :=
  train_from size_ 0 batches.

(** The number of samples in the batches before batch number [k]. *)
Definition seen_before (k : nat) (batches : list (Batch * Labels)) : nat :=
  list_sum (map (fun b => len (fst b)) (firstn k batches)).

(** The sizes of the batches never grow from one batch to the next, as
    with a loader that cuts a dataset into batches of a fixed size and
    ends with what is left. *)
Fixpoint nonincreasing (sizes : list nat) : Prop :=
  match sizes with
  | a :: ((b :: _) as rest) => (b <= a)%nat /\ nonincreasing rest
  | _ => True
  end.

End Loop.

End Training.

(** ** The evaluation loop (lines 755-772) *)

Module Evaluation.
Import Exn Session.

(** A title set on an axis: the axis, the estimate and the true label. *)
Record title : Type := Title {
  axis : nat;
  estimated : nat;
  truth : Z
}.

(** The state: the random source ([draws k] is the result of the
    [k]-th call of [np.random.rand()], [used] calls were made so far)
    and the titles set so far. *)
Record session : Type := Session {
  draws : nat -> Q;
  used : nat;
  titles : list title
}.

(** [np.random.rand()] *)
Definition rand : M session Q :=
  fun s =>
    ({| draws := draws s; used := S (used s); titles := titles s |},
     Ok (draws s (used s))).

(** [ax.set_title(f"Estimate: {label_name}; True: {y_name}")] *)
Definition set_title (t : title) : M session unit :=
  fun s =>
    ({| draws := draws s; used := used s; titles := titles s ++ [t] |}, Ok tt).

(** An image with its label, as the loader hands them out. *)
Definition sample : Type := (NeuralNetwork.plane * Z)%type.

(** The element type of the images of the loader: they are those of an
    [MNISTDataset], which holds [images.float()] (line 546). *)
Definition loader_dtype : NeuralNetwork.dtype := NeuralNetwork.Float32.

(** The four axes of [plt.subplots(2, 2)], flattened. *)
Definition axs : list nat := [0; 1; 2; 3]%nat.

(** [zip(axs, X_batch, y_batch)]: as many triples as the shortest. *)
Definition zip_axes (batch : list sample) : list (nat * sample) :=
  combine axs batch.

(** The inner loop: estimate and title for each zipped image.  The
    calls [ax.imshow(X)] and [ax.axis('off')] draw and leave the titles
    as they are. *)
Fixpoint show {arithmetic : NeuralNetwork.Arithmetic} (model : NeuralNetwork.t)
    (items : list (nat * sample)) : M session unit :=
  match items with
  | [] => ret tt
  | (ax, (X, y)) :: rest =>
      label <~ pure_call (Predict.estimate model loader_dtype X) ;;
      _ <~ set_title {| axis := ax; estimated := label; truth := y |} ;;
      show model rest
  end.

(** The outer loop: a batch is skipped ([continue]) while the draw is
    below 0.9; the first batch that is not skipped is shown and ends
    the loop ([break]). *)
Fixpoint evaluate {arithmetic : NeuralNetwork.Arithmetic}
    (model : NeuralNetwork.t) (batches : list (list sample))
  : M session unit :=
  match batches with
  | [] => ret tt
  | batch :: rest =>
      r <~ rand ;;
      if Predict.Qltb r (9 # 10) then evaluate model rest
      else show model (zip_axes batch)
  end.

(** The first batch number, from [k] on, whose draw is not below 0.9. *)
Fixpoint first_shown (draws_ : nat -> Q) (k : nat) (n : nat) : option nat :=
  match n with
  | O => None
  | S n' =>
      if Predict.Qltb (draws_ k) (9 # 10) then first_shown draws_ (S k) n'
      else Some k
  end.

End Evaluation.

(** ** The gradient-descent loop (lines 425-444) *)

Module Descent.
Local Open Scope R_scope.

(** A printed line: step number, [float(t)], [float(dist)]. *)
Definition line : Type := (nat * R * R)%type.

Section Loop.
(** [t.grad] after [optimizer.zero_grad(); loss(t).backward()]: the
    gradient, as the library computes it, of the loss at [t]. *)
Variable grad : R -> R.

(** The learning rate, [lr=0.05]. *)
Definition lr : R := 0.05.

(** [optimizer.step()] of plain SGD: [t] moves against the gradient. *)
Definition sgd_step (t : R) : R := t - lr * grad t.

(** [for step_number in steps]: the lines printed and the final [t]. *)
Fixpoint descend (steps : list nat) (t : R) : list line * R :=
  match steps with
  | [] => ([], t)
  | step_number :: rest =>
      let dist := Curve.loss t in
      let (lines, t') := descend rest (sgd_step t) in
      ((step_number, t, dist) :: lines, t')
  end.

(** The cell from an initial [t]: twenty steps, then [print(t, loss(t))]. *)
Definition optimize (t0 : R) : list line * (R * R) :=
  let (lines, t) := descend (seq 0 20) t0 in
  (lines, (t, Curve.loss t)).

End Loop.

(** The cell as written: [t = torch.tensor(2.1, requires_grad=True)]. *)
Definition cell (grad : R -> R) : list line * (R * R) := optimize grad 2.1.

(** The derivative of the loss at [t], written out:
    [(x x' + y y') / sqrt(x^2 + y^2)] for [(x, y) = curve(t)]. *)
Definition loss_derivative (t : R) : R :=
  let (x, y) := Curve.curve t in
  (x * cos t + y * (- (2 * sin t) - 2 * sin (2 * t))) / Curve.loss t.

End Descent.

(** ** Names across cells *)

Module Names.
Import PyAst.

(** The built-in functions the notebooks call. *)
Definition builtins : list string :=
  ["print"; "type"; "range"; "float"; "len"; "zip"; "enumerate"; "str"; "super"].

(** The function definitions of a statement, methods included: the
    parameters and the body of each. *)
Fixpoint bodies (s : stmt) : list (list string * list stmt) :=
  match s with
  | FunctionDef _ ps b => (ps, b) :: flat_map bodies b
  | ClassDef _ _ b | For _ _ b | While _ b | With _ b => flat_map bodies b
  | If _ b o => flat_map bodies b ++ flat_map bodies o
  | _ => []
  end.

(** The names a function body reads that are neither parameters nor
    bound in the body before the read. *)
Definition body_reads (pb : list string * list stmt) : list string :=
  fst (cell_outside (fst pb) (snd pb)).

(** Going through the cells from the top, with the names [earlier]
    cells have bound: the names a cell reads before anything has bound
    them, and the names its function bodies read that nothing has bound
    by the end of the cell. *)
Fixpoint unbound_from (earlier : list string) (nb : notebook) : list string :=
  match nb with
  | [] => []
  | c :: nb' =>
      let (reads, bound) := cell_outside [] (cell_code c) in
      unbound (builtins ++ earlier) reads
        ++ unbound (builtins ++ bound ++ earlier)
             (flat_map body_reads (flat_map bodies (cell_code c)))
        ++ unbound_from (bound ++ earlier) nb'
  end.

Definition nb_unbound (nb : notebook) : list string := unbound_from [] nb.

(** A statement assigns to the variable [n], at cell level or in a loop
    or branch. *)
Fixpoint assigns (n : string) (s : stmt) : bool :=
  match s with
  | Assign t _ => existsb (String.eqb n) (target_names t)
  | For t _ b =>
      existsb (String.eqb n) (target_names t) || existsb (assigns n) b
  | While _ b | With _ b => existsb (assigns n) b
  | If _ b o => existsb (assigns n) b || existsb (assigns n) o
  | _ => false
  end.

Definition calls_by_name (n : string) (e : expr) : bool :=
  match e with
  | Call (Name f) _ _ => String.eqb f n
  | _ => false
  end.

(** The cells, by line, that assign to [n], and those that call [n]. *)
Definition cells_assigning (n : string) (nb : notebook) : list nat :=
  map cell_line (filter (fun c => existsb (assigns n) (cell_code c)) nb).

Definition cells_calling (n : string) (nb : notebook) : list nat :=
  map cell_line
    (filter (fun c => existsb (calls_by_name n)
                        (flat_map stmt_calls (cell_code c))) nb).

(** The cells that define a function or class [n] at cell level. *)
Definition defines (n : string) (s : stmt) : bool :=
  match s with
  | FunctionDef f _ _ | ClassDef f _ _ => String.eqb f n
  | _ => false
  end.

Definition cells_defining (n : string) (nb : notebook) : list nat :=
  map cell_line (filter (fun c => existsb (defines n) (cell_code c)) nb).

(** The cells that read [n] before binding it themselves: they use what
    an earlier cell left under that name. *)
Definition cells_reading_outside (n : string) (nb : notebook) : list nat :=
  map cell_line
    (filter (fun c => existsb (String.eqb n)
                        (fst (cell_outside [] (cell_code c)))) nb).

(** The cells follow one another in the file. *)
Fixpoint ascending (lines : list nat) : bool :=
  match lines with
  | a :: ((b :: _) as rest) => (a <? b)%nat && ascending rest
  | _ => true
  end.

End Names.

(** ** A small library to run the loops with *)

Module Toy.
Import Exn Session.

(** The library state counts the optimizer steps taken.  A batch is a
    list of numbers, the model adds them up and the loss is that sum. *)
Definition model (X : list Z) : M nat Z := ret (fold_right Z.add 0%Z X).
Definition loss_fn (pred : Z) (y : list Z) : M nat Z := ret pred.
Definition zero_grad : M nat unit := ret tt.
Definition backward (loss : Z) : M nat unit := ret tt.
Definition step : M nat unit := fun n => (S n, Ok tt).
Definition item (loss : Z) : M nat Q := ret (inject_Z loss).

(** Two batches, of two samples and of one. *)
Definition batches : list (list Z * list Z) :=
  [([1; 2]%Z, [7; 9]%Z); ([3]%Z, [4]%Z)].

(** The training loop over this library. *)
Definition train (size_ : nat) (bs : list (list Z * list Z))
  : M (Training.session (L := nat)) unit :=
  Training.train model loss_fn zero_grad backward step item
    (@List.length Z) size_ bs.

(** Draws that skip the first batch and show the second. *)
Definition draws (k : nat) : Q :=
  match k with
  | O => 1 # 2
  | _ => 19 # 20
  end.

(** Two batches of one blank image each, labelled 5 and 8. *)
Definition blank_batches : list (list Evaluation.sample) :=
  [ [(Samples.blank_image, 5%Z)];
    [(Samples.blank_image, 8%Z)] ].

(** Float32 batches for the network: one blank image of 14 rows and 56
    columns, one 2 by 2 image, and two blank 28 by 28 images with the
    rows a network of zero parameters gives for them. *)
Definition wide_batch : NeuralNetwork.images :=
  {| NeuralNetwork.images_dtype := NeuralNetwork.Float32;
     NeuralNetwork.images_height := 14;
     NeuralNetwork.images_width := 56;
     NeuralNetwork.images_planes := [repeat (repeat Samples.zero 56) 14] |}.

Definition small_batch : NeuralNetwork.images :=
  {| NeuralNetwork.images_dtype := NeuralNetwork.Float32;
     NeuralNetwork.images_height := 2;
     NeuralNetwork.images_width := 2;
     NeuralNetwork.images_planes :=
       [[[NeuralNetwork.Finite 1; NeuralNetwork.Finite 2];
         [NeuralNetwork.Finite 3; NeuralNetwork.Finite 4]]] |}.

Definition two_blank : NeuralNetwork.images :=
  {| NeuralNetwork.images_dtype := NeuralNetwork.Float32;
     NeuralNetwork.images_height := 28;
     NeuralNetwork.images_width := 28;
     NeuralNetwork.images_planes :=
       [Samples.blank_image; Samples.blank_image] |}.

Definition two_rows : NeuralNetwork.matrix :=
  {| NeuralNetwork.matrix_dtype := NeuralNetwork.Float32;
     NeuralNetwork.matrix_cols := 10;
     NeuralNetwork.matrix_rows :=
       [repeat Samples.zero 10; repeat Samples.zero 10] |}.

End Toy.

(** ** A run that ends well *)

Module RunMore.
Import Run.




(** The same as a test, going through the trace with the number of
    occurrences of [a] seen so far. *)
Fixpoint check_preceded_by (n : nat) (a b : event) (seen : nat)
    (tr : list event) : bool :=
  match tr with
  | [] => true
  | e :: tr' =>
      (negb (event_eqb b e) || (n <=? seen)%nat)
      && check_preceded_by n a b
           (if event_eqb a e then S seen else seen) tr'
  end.

(** A list with the elements at positions [i] and [i + 1] exchanged. *)
Fixpoint exchange {A : Type} (i : nat) (l : list A) : list A :=
  match i, l with
  | O, a :: b :: rest => b :: a :: rest
  | S i', a :: rest => a :: exchange i' rest
  | _, _ => l
  end.


End RunMore.

(** * Properties *)

(** ** Structure of the notebooks *)

Module Structure.
Import PyAst Effects.

Lemma torch_in_repository : In Torch.cells repository.
Proof. right; left; reflexivity. Qed.

(** The cell of the gradient-descent loop (line 424) is a member of the
    PyTorch notebook and holds a [for] statement. *)
Lemma sgd_cell_has_loop :
  exists c, In c Torch.cells /\ cell_line c = 424%nat
            /\ cell_controls c = [KFor] /\ straight_line c = false.
Proof.
  exists (nth 7 Torch.cells (Cell 0 [])).
  repeat split; try reflexivity.
  do 7 right; left; reflexivity.
Qed.

(** C2 fails as stated: the cell at line 424 of the PyTorch notebook
    runs a [for] loop, so not every cell is straight-line. *)
Lemma not_all_cells_straight_line : ~ Spec.all_cells_straight_line.
Proof.
  intros Hall.
  destruct sgd_cell_has_loop as (c & Hin & _ & _ & Hloop).
  rewrite (Hall Torch.cells c torch_in_repository Hin) in Hloop.
  discriminate.
Qed.

(** C2, amended: neither notebook has an error-handling construct
    ([try], [raise], [assert], [with]) or a [global] / [nonlocal]
    declaration; every cell of the abagen notebook is straight-line; of
    the seventeen code cells of the PyTorch notebook exactly those at
    lines 424, 569, 608, 715 and 749 are not: they hold [for] loops, over
    [range], [zip], [enumerate] and the data loaders, with [if], [break]
    and [continue] (no [while]).  State is held in variables, which the
    later cells read as listed; the only other stores are the in-place
    update of [u] and the instance attributes set by the two [__init__]
    methods. *)
Theorem control_flow_and_state :
  existsb handles_errors repository_code = false
  /\ existsb declares_scope repository_code = false
  /\ forallb straight_line Abagen.cells = true
  /\ List.length Torch.cells = 17%nat
  /\ map (fun c => (cell_line c, cell_controls c))
         (filter (fun c => negb (straight_line c)) Torch.cells)
     = [ (424, [KFor]); (569, [KFor; KBreak]); (608, [KFor; KFor; KBreak]);
         (715, [KFor; KIf]); (749, [KFor; KIf; KContinue; KFor; KBreak]) ]%nat
  /\ flat_map loop_iters (nb_code Torch.cells)
     = [ "range()"; "test_dataloader"; "train_dataloader"; "zip()";
         "enumerate()"; "test_dataloader"; "zip()" ]
  /\ nb_shared Abagen.cells
     = [ "abagen"; "files"; "atlas"; "expression"; "report";
         "expression_maxprobe"; "report_maxprobe" ]
  /\ nb_shared Torch.cells
     = [ "torch"; "u"; "np"; "plt"; "loss"; "curve"; "t"; "training_images";
         "training_labels"; "test_images"; "test_labels"; "DataLoader";
         "training_data"; "test_data"; "train_dataloader"; "nn"; "model";
         "loss_fn"; "optimizer"; "test_dataloader" ]
  /\ nb_other_stores Abagen.cells = []
  /\ nb_other_stores Torch.cells
     = ["u[]"; "self.images"; "self.labels"; "self.flatten";
        "self.linear_relu_stack"].
Proof.
  split; [reflexivity |].
  split; [reflexivity |].
  split; [reflexivity |].
  split; [reflexivity |].
  split; [vm_compute; reflexivity |].
  split; [reflexivity |].
  split; [vm_compute; reflexivity |].
  split; [vm_compute; reflexivity |].
  split; reflexivity.
Qed.

(** C3 fails as stated: the PyTorch notebook defines classes of its own. *)
Lemma own_classes_exist : ~ Spec.no_own_classes.
Proof.
  intros Hnone.
  specialize (Hnone Torch.cells torch_in_repository).
  discriminate Hnone.
Qed.

(** C3, amended: the abagen notebook defines no class and no function
    and every call it makes is one of the listed library calls (data
    download, atlas fetch, parcellation, report generation, display,
    saving); the PyTorch notebook does its dataset wrapping and model
    definition with two classes of its own, [MNISTDataset] (a
    [torch.utils.data.Dataset]) and [NeuralNetwork] (an [nn.Module]),
    with the listed methods, and calls them by name as listed. *)
Theorem operations_and_own_classes :
  nb_classes Abagen.cells = []
  /\ nb_functions Abagen.cells = []
  /\ nb_callees Abagen.cells
     = [ "abagen.fetch_microarray"; "abagen.fetch_desikan_killiany";
         "abagen.get_expression_data"; "reporting.Report";
         "generator.gen_report"; "Markdown"; "display";
         "abagen.get_expression_data"; "Markdown"; "display";
         "expression.to_csv"; "expression_maxprobe.to_csv" ]
  /\ nb_classes Torch.cells
     = [ ("MNISTDataset", ["torch.utils.data.Dataset"]);
         ("NeuralNetwork", ["nn.Module"]) ]
  /\ flat_map (defined_functions "") [Torch.MNISTDataset_def; Torch.NeuralNetwork_def]
     = [ "MNISTDataset.__init__"; "MNISTDataset.__getitem__";
         "MNISTDataset.__len__"; "NeuralNetwork.__init__";
         "NeuralNetwork.forward" ]
  /\ In Torch.MNISTDataset_def (nb_code Torch.cells)
  /\ In Torch.NeuralNetwork_def (nb_code Torch.cells)
  /\ filter (fun f => negb (String.eqb f "curve" || String.eqb f "loss"))
         (nb_own_calls Torch.cells)
     = ["MNISTDataset"; "MNISTDataset"; "NeuralNetwork"].
Proof.
  repeat split.
  - unfold nb_code. apply in_flat_map.
    exists (nth 10 Torch.cells (Cell 0 [])).
    split; [do 10 right; left; reflexivity | left; reflexivity].
  - unfold nb_code. apply in_flat_map.
    exists (nth 13 Torch.cells (Cell 0 [])).
    split; [do 13 right; left; reflexivity | left; reflexivity].
Qed.

(** C6: the calls of the abagen notebook are rooted at the names it
    imports or binds, its shell lines run [head], [tail] and [cp] on
    local paths, and the files its code writes are the two expression
    CSV files and the copy of the atlas table; the PyTorch notebook runs
    no shell line and writes no file, and its calls are rooted at the
    listed names. *)
Theorem files_written :
  map normalize (nb_writes Abagen.cells)
  = [ "Expression_AHBA_abagen_defaultparam.csv";
      "Expression_AHBA_abagen_maxprobe.csv";
      "atlas-desikankilliany_copy.csv" ]
  /\ map shell_words (nb_shells Abagen.cells)
     = [ ["head"; Abagen.atlas_csv]; ["tail"; Abagen.atlas_csv];
         ["cp"; Abagen.atlas_csv; "./atlas-desikankilliany_copy.csv"] ]
  /\ nb_roots Abagen.cells
     = [ "abagen"; "reporting"; "generator"; "Markdown"; "display";
         "expression"; "expression_maxprobe" ]
  /\ nb_writes Torch.cells = []
  /\ nb_shells Torch.cells = []
  /\ nb_roots Torch.cells
     = [ "torch"; "print"; "np"; "u"; "type"; "curve"; "plt"; "loss"; "dist";
         "range"; "optimizer"; "float"; "x0"; "y0"; "images"; "len";
         "MNISTDataset"; "DataLoader"; "axs"; "zip"; "ax"; "y"; "super";
         "nn"; "self"; "NeuralNetwork"; "model"; "enumerate"; "loss_fn";
         "str"; "label" ].
Proof.
  repeat split.
Qed.

End Structure.

(** ** The curve and its loss *)

Module CurveFacts.
Import PyAst Denote.
Local Open Scope R_scope.

Lemma half : IZR 5 * powerRZ 10 (-1) = 0.5.
Proof. simpl. lra. Qed.

Lemma three_quarters : IZR 75 * powerRZ 10 (-2) = 0.75.
Proof. simpl. lra. Qed.

(** The transcribed [def curve] means the function [Curve.curve]. *)
Lemma curve_meaning_correct (t : R) :
  curve_meaning t
  = Some (VTuple [VNum (fst (Curve.curve t)); VNum (snd (Curve.curve t))]).
Proof.
  unfold curve_meaning, apply_def, Torch.curve_def.
  cbn -[IZR powerRZ Rmult Rplus Rminus sin cos].
  rewrite half, three_quarters.
  reflexivity.
Qed.

(** The transcribed [def loss] means the function [Curve.loss]. *)
Lemma loss_meaning_correct (t : R) :
  loss_meaning t = Some (VNum (Curve.loss t)).
Proof.
  unfold loss_meaning, apply_def, Torch.loss_def.
  cbn -[IZR powerRZ Rmult Rplus Rminus sin cos sqrt pow curve_meaning].
  rewrite curve_meaning_correct.
  cbn -[IZR powerRZ Rmult Rplus Rminus sin cos sqrt pow].
  reflexivity.
Qed.

(** [loss] written out in terms of [t]. *)
Lemma loss_unfold (t : R) :
  Curve.loss t
  = sqrt ((sin t - 0.5) ^ 2 + (2 * cos t + cos (2 * t) + 0.75) ^ 2).
Proof.
  unfold Curve.loss, Curve.curve.
  f_equal. ring.
Qed.

(** The functions of the PyTorch notebook that have a meaning over the
    reals. *)
Lemma torch_meanings :
  nb_meanings Torch.cells = [("curve", curve_meaning); ("loss", loss_meaning)].
Proof. reflexivity. Qed.

(** [loss] written out as a distance. *)
Lemma loss_meaning_distance (t : R) :
  loss_meaning t
  = Some (VNum (Spec.euclidean_distance
                  (sin t - 0.5, 2 * cos t + cos (2 * t) + 0.75) (0, 0))).
Proof.
  rewrite loss_meaning_correct, loss_unfold.
  unfold Spec.euclidean_distance; simpl fst; simpl snd.
  replace (sin t - 0.5 - 0) with (sin t - 0.5) by ring.
  replace (2 * cos t + cos (2 * t) + 0.75 - 0)
    with (2 * cos t + cos (2 * t) + 0.75) by ring.
  reflexivity.
Qed.

(** C1 fails as stated: the function [loss] that the PyTorch notebook
    defines computes, for every real [t], the Euclidean distance from
    the origin to the point [(sin t - 0.5, 2 cos t + cos 2t + 0.75)]. *)
Lemma specified_function_exists : ~ Spec.no_specified_function.
Proof.
  intros Hnone.
  apply (Hnone Torch.cells "loss"%string loss_meaning
           Structure.torch_in_repository).
  - rewrite torch_meanings. right; left; reflexivity.
  - eexists. intros t. apply loss_meaning_distance.
Qed.

(** C1, amended: the abagen notebook has no logic of its own: it
    defines no function and no class, no function of it has a meaning
    over the reals, it applies no operator, and its code is imports,
    the shell lines [head], [tail] and [cp], and calls, none of a name
    it defines and all rooted at names it imports or variables it has
    assigned.  The PyTorch notebook has: besides the methods of its two
    classes it defines [curve] and [loss], the two functions with a
    meaning over the reals, and these compute results with a
    mathematical specification of their own: [curve(t)] is the point
    [(sin t - 0.5, 2 cos t + cos 2t + 0.75)] and [loss(t)] is the
    Euclidean distance from the origin to that point. *)
Theorem own_functions_and_their_meaning :
  nb_functions Abagen.cells = []
  /\ nb_classes Abagen.cells = []
  /\ nb_meanings Abagen.cells = []
  /\ forallb Originality.delegating (nb_code Abagen.cells) = true
  /\ map Effects.shell_program (Effects.nb_shells Abagen.cells)
     = ["head"; "tail"; "cp"]%string
  /\ nb_own_calls Abagen.cells = []
  /\ Originality.calls_rooted_in_libraries Abagen.cells = true
  /\ nb_functions Torch.cells
     = [ "curve"; "loss"; "MNISTDataset.__init__"; "MNISTDataset.__getitem__";
         "MNISTDataset.__len__"; "NeuralNetwork.__init__";
         "NeuralNetwork.forward" ]%string
  /\ nb_meanings Torch.cells
     = [("curve"%string, curve_meaning); ("loss"%string, loss_meaning)]
  /\ (forall t,
        curve_meaning t
        = Some (VTuple [ VNum (sin t - 0.5);
                         VNum (2 * cos t + cos (2 * t) + 0.75) ]))
  /\ (forall t,
        loss_meaning t
        = Some (VNum (Spec.euclidean_distance
                        (sin t - 0.5, 2 * cos t + cos (2 * t) + 0.75) (0, 0)))).
Proof.
  split; [reflexivity |]. split; [reflexivity |]. split; [reflexivity |].
  split; [reflexivity |]. split; [reflexivity |]. split; [reflexivity |].
  split; [reflexivity |]. split; [reflexivity |].
  split; [exact torch_meanings |].
  split.
  - intros t. rewrite curve_meaning_correct. unfold Curve.curve; simpl.
    replace (2 * cos t) with (cos t * 2) by ring.
    reflexivity.
  - exact loss_meaning_distance.
Qed.

(** C8: for every real [t], [loss(t)] is
    [sqrt((sin t - 0.5)^2 + (2 cos t + cos 2t + 0.75)^2)], which is the
    Euclidean distance from [(0,0)] to [curve(t)], and it is not
    negative. *)
Theorem loss_is_distance_from_origin (t : R) :
  Curve.loss t
  = sqrt ((sin t - 0.5) ^ 2 + (2 * cos t + cos (2 * t) + 0.75) ^ 2)
  /\ Curve.loss t = Spec.euclidean_distance (0, 0) (Curve.curve t)
  /\ 0 <= Curve.loss t.
Proof.
  split; [apply loss_unfold | split].
  - unfold Curve.loss, Spec.euclidean_distance.
    destruct (Curve.curve t) as [x y]; simpl.
    f_equal. ring.
  - unfold Curve.loss. destruct (Curve.curve t) as [x y].
    apply sqrt_pos.
Qed.

(** On a 1-dimensional tensor every element of the loss is not
    negative either. *)
Lemma loss_each_nonnegative (ts : list R) :
  Forall (fun l => 0 <= l) (Curve.loss_each ts).
Proof.
  unfold Curve.loss_each. apply Forall_map, Forall_forall.
  intros t _. unfold Curve.loss. destruct (Curve.curve t) as [x y].
  apply sqrt_pos.
Qed.

End CurveFacts.

(** ** Order of the steps of the abagen notebook *)

Module Order.
Import PyAst Run.











End Order.

(** ** The dataset wrapper *)

Module DatasetFacts.
Import PyAst Exn Tensor.

(** Indexing commutes with the conversion to float. *)
Lemma getitem_float (t : tensor) (ii : Z) :
  getitem (float_ t) ii
  = match getitem t ii with
    | Ok r => Ok (float_ r)
    | Raised e => Raised e
    end.
Proof.
  destruct t as [s | rs]; simpl; [reflexivity |].
  rewrite length_map.
  destruct ((- Z.of_nat (List.length rs) <=? ii)%Z
            && (ii <? Z.of_nat (List.length rs))%Z); [| reflexivity].
  rewrite nth_error_map.
  destruct (nth_error rs _); reflexivity.
Qed.

Lemma len_in_range (t : tensor) (n ii : Z) :
  len t = Ok n -> (- n <= ii < n)%Z -> in_range t ii.
Proof.
  destruct t as [s | rs]; simpl; intros Hlen Hii; [discriminate |].
  injection Hlen as <-. exact Hii.
Qed.

(** An index in range selects a sub-tensor. *)
Lemma getitem_in_range (t : tensor) (ii : Z) :
  in_range t ii -> exists r, getitem t ii = Ok r.
Proof.
  destruct t as [s | rs]; simpl; [intros [] |].
  intros [Hlo Hhi].
  replace (- Z.of_nat (List.length rs) <=? ii)%Z with true
    by (symmetry; apply Z.leb_le; exact Hlo).
  replace (ii <? Z.of_nat (List.length rs))%Z with true
    by (symmetry; apply Z.ltb_lt; exact Hhi).
  simpl.
  destruct (nth_error rs _) as [r |] eqn:Hnth; [exists r; reflexivity |].
  apply nth_error_None in Hnth.
  destruct (ii <? 0)%Z eqn:Hneg;
    [apply Z.ltb_lt in Hneg | apply Z.ltb_ge in Hneg]; lia.
Qed.

(** An index out of range raises [IndexError]. *)
Lemma getitem_out_of_range (t : tensor) (ii : Z) :
  ~ in_range t ii -> exists msg, getitem t ii = Raised (IndexError msg).
Proof.
  destruct t as [s | rs]; simpl; intros Hout; [eexists; reflexivity |].
  destruct ((- Z.of_nat (List.length rs) <=? ii)%Z
            && (ii <? Z.of_nat (List.length rs))%Z) eqn:Hin.
  - exfalso. apply Hout.
    apply andb_prop in Hin as [Hlo Hhi].
    apply Z.leb_le in Hlo. apply Z.ltb_lt in Hhi. lia.
  - eexists; reflexivity.
Qed.

(** The last sample, by a negative index. *)
Example getitem_last :
  MNISTDataset.__getitem__ Samples.two_samples (-1)
  = Ok (Rows [ Rows [Item (SFloat 1); Item (SFloat 2)];
               Rows [Item (SFloat 3); Item (SFloat 4)] ],
        Item (SInt 9)).
Proof. reflexivity. Qed.

Example getitem_below_range :
  MNISTDataset.__getitem__ Samples.two_samples (-3)
  = Raised (IndexError "index out of range").
Proof. reflexivity. Qed.

(** An exception raised by either indexing is the outcome of
    [__getitem__], whatever the tensor library. *)
Lemma getitem_raises {T : Type} `{TensorLib T}
    (self : MNISTDataset.t T) (ii : Z) (e : exn) :
  t_getitem (MNISTDataset.images self) ii = Raised e
  \/ (exists a, t_getitem (MNISTDataset.images self) ii = Ok a
                /\ t_getitem (MNISTDataset.labels self) ii = Raised e) ->
  MNISTDataset.__getitem__ self ii = Raised e.
Proof.
  unfold MNISTDataset.__getitem__.
  intros [Himg | (a & Himg & Hlab)]; rewrite Himg; simpl;
    [| rewrite Hlab]; reflexivity.
Qed.

(** C4: whatever the tensor library, when indexing [self.images] (or,
    after it succeeded, indexing [self.labels]) at [ii] raises [e], then
    [__getitem__(ii)] raises exactly [e]; likewise [__init__] and
    [__len__] pass on what [float()] and [len()] raise.  The class body
    has no branch, loop or check, and neither notebook has a [try],
    [raise], [assert] or [with].  With list-like tensors, every index
    outside [-n .. n-1] makes [__getitem__] raise the [IndexError] of the
    indexing itself. *)
Theorem getitem_propagates_errors {T : Type} `{TensorLib T}
    (self : MNISTDataset.t T) (ii : Z) (e : exn) :
  t_getitem (MNISTDataset.images self) ii = Raised e
  \/ (exists a, t_getitem (MNISTDataset.images self) ii = Ok a
                /\ t_getitem (MNISTDataset.labels self) ii = Raised e) ->
  MNISTDataset.__getitem__ self ii = Raised e
  /\ (forall im lb e', t_float im = Raised e' ->
        MNISTDataset.__init__ im lb = Raised e')
  /\ (forall ds e', t_len (MNISTDataset.labels ds) = Raised e' ->
        MNISTDataset.__len__ ds = Raised e')
  /\ control_free Torch.MNISTDataset_def = true
  /\ existsb handles_errors repository_code = false
  /\ (forall (ds : MNISTDataset.t tensor) (jj : Z),
        ~ in_range (MNISTDataset.images ds) jj ->
        exists msg,
          getitem (MNISTDataset.images ds) jj = Raised (IndexError msg)
          /\ MNISTDataset.__getitem__ ds jj = Raised (IndexError msg)).
Proof.
  intros Hraise.
  split; [apply getitem_raises; exact Hraise |].
  split; [intros im lb e' Hf; unfold MNISTDataset.__init__;
          rewrite Hf; reflexivity |].
  split; [intros ds e' Hl; exact Hl |].
  split; [reflexivity |].
  split; [reflexivity |].
  intros ds jj Hout.
  destruct (getitem_out_of_range _ _ Hout) as [msg Hmsg].
  exists msg. split; [exact Hmsg |].
  apply getitem_raises. left. exact Hmsg.
Qed.

(** The index 2 is out of range for the two-sample dataset. *)
Lemma getitem_propagates_errors_witness :
  t_getitem (MNISTDataset.images Samples.two_samples) 2
  = Raised (IndexError "index out of range")
  /\ MNISTDataset.__getitem__ Samples.two_samples 2
     = Raised (IndexError "index out of range").
Proof.
  split; [reflexivity |].
  apply (getitem_propagates_errors Samples.two_samples 2
           (IndexError "index out of range")).
  left. reflexivity.
Defined.

(** C7: for tensors [images] and [labels] of the same leading length
    [n], constructing the dataset succeeds; its [labels] attribute is
    the tensor passed in; [len(dataset)] is [len(labels)]; and for every
    index [ii] in range ([-n <= ii < n], negative indices counting from
    the end) [dataset[ii]] is the pair of [images[ii]] converted to
    float and [labels[ii]]. *)
Theorem dataset_wraps_tensors (images labels : tensor) (n : Z) :
  len images = Ok n ->
  len labels = Ok n ->
  exists ds,
    MNISTDataset.__init__ images labels = Ok ds
    /\ MNISTDataset.labels ds = labels
    /\ MNISTDataset.__len__ ds = len labels
    /\ MNISTDataset.__len__ ds = Ok n
    /\ forall ii, (- n <= ii < n)%Z ->
         exists im lb,
           getitem images ii = Ok im
           /\ getitem labels ii = Ok lb
           /\ MNISTDataset.__getitem__ ds ii = Ok (float_ im, lb).
Proof.
  intros Himages Hlabels.
  eexists. split; [reflexivity |].
  split; [reflexivity |].
  split; [reflexivity |].
  split; [exact Hlabels |].
  intros ii Hii.
  destruct (getitem_in_range images ii (len_in_range _ _ _ Himages Hii))
    as [im Him].
  destruct (getitem_in_range labels ii (len_in_range _ _ _ Hlabels Hii))
    as [lb Hlb].
  exists im, lb. split; [exact Him |]. split; [exact Hlb |].
  unfold MNISTDataset.__getitem__; simpl.
  rewrite getitem_float, Him; simpl.
  rewrite Hlb. reflexivity.
Qed.

(** Two images with their two labels. *)
Lemma dataset_wraps_tensors_witness :
  len Samples.two_images = Ok 2%Z
  /\ len Samples.two_labels = Ok 2%Z
  /\ exists ds,
       MNISTDataset.__init__ Samples.two_images Samples.two_labels = Ok ds
       /\ MNISTDataset.labels ds = Samples.two_labels
       /\ MNISTDataset.__len__ ds = len Samples.two_labels
       /\ MNISTDataset.__len__ ds = Ok 2%Z
       /\ forall ii, (- 2 <= ii < 2)%Z ->
            exists im lb,
              getitem Samples.two_images ii = Ok im
              /\ getitem Samples.two_labels ii = Ok lb
              /\ MNISTDataset.__getitem__ ds ii = Ok (float_ im, lb).
Proof.
  split; [reflexivity |]. split; [reflexivity |].
  apply (dataset_wraps_tensors Samples.two_images Samples.two_labels 2);
    reflexivity.
Defined.

End DatasetFacts.

(** ** The network *)

Module NetworkFacts.
Import Exn NeuralNetwork.

Lemma has_shape2_spec (x : plane) (n c : nat) :
  has_shape2 x n c = true
  <-> List.length x = n /\ Forall (fun r => List.length r = c) x.
Proof.
  unfold has_shape2.
  rewrite andb_true_iff, Nat.eqb_eq, forallb_forall, Forall_forall.
  split; intros [Hn Hrows]; (split; [exact Hn |]);
    intros r Hr; apply Nat.eqb_eq || apply Nat.eqb_eq in Hrows;
    auto.
Qed.

Lemma matrix_shape_spec (x : matrix) (n c : nat) :
  matrix_shape x n c = true
  <-> matrix_cols x = c /\ has_shape2 (matrix_rows x) n c = true.
Proof.
  unfold matrix_shape. rewrite andb_true_iff, Nat.eqb_eq. reflexivity.
Qed.

Lemma images_shape_spec (x : images) (n h w : nat) :
  images_shape x n h w = true
  <-> images_height x = h /\ images_width x = w
      /\ has_shape3 (images_planes x) n h w = true.
Proof.
  unfold images_shape. rewrite !andb_true_iff, !Nat.eqb_eq. tauto.
Qed.

Lemma concat_length_rows (c : nat) (im : plane) :
  Forall (fun r => List.length r = c) im ->
  List.length (List.concat im) = (List.length im * c)%nat.
Proof.
  induction 1 as [| r im Hr _ IH]; simpl; [reflexivity |].
  rewrite length_app, IH, Hr. reflexivity.
Qed.

(** [Flatten] turns [[n, h, w]] into [[n, h * w]]. *)
Lemma Flatten_shape (x : images) (n h w : nat) :
  images_shape x n h w = true ->
  matrix_shape (Flatten_forward x) n (h * w) = true.
Proof.
  intros Hx. apply images_shape_spec in Hx as (Hh & Hw & Hx).
  apply matrix_shape_spec. unfold Flatten_forward.
  cbn [matrix_cols matrix_rows]. split; [rewrite Hh, Hw; reflexivity |].
  unfold has_shape3 in Hx.
  apply andb_true_iff in Hx as [Hn Hims].
  apply Nat.eqb_eq in Hn. rewrite forallb_forall in Hims.
  apply has_shape2_spec. rewrite length_map. split; [exact Hn |].
  apply Forall_map, Forall_forall. intros im Him.
  apply Hims, has_shape2_spec in Him as [Hlen Hrows].
  rewrite (concat_length_rows w im Hrows), Hlen. reflexivity.
Qed.

(** The output of a [ReLU] has no element below zero. *)
Lemma relu_not_negative (v : float) : not_negative (relu v).
Proof.
  destruct v as [q | | |]; simpl; try exact I.
  - apply Q.le_max_l.
  - apply Qle_refl.
Qed.

Lemma ReLU_never_negative (x : matrix) :
  never_negative (matrix_rows (ReLU_forward x)).
Proof.
  unfold never_negative, ReLU_forward. cbn [matrix_rows].
  apply Forall_map, Forall_forall. intros r _.
  apply Forall_map, Forall_forall. intros q _.
  apply relu_not_negative.
Qed.

Lemma ReLU_shape (x : matrix) (n c : nat) :
  matrix_shape x n c = true ->
  matrix_shape (ReLU_forward x) n c = true.
Proof.
  rewrite !matrix_shape_spec, !has_shape2_spec.
  unfold ReLU_forward. cbn [matrix_cols matrix_rows].
  intros (Hc & Hn & Hrows). split; [exact Hc |].
  rewrite length_map. split; [exact Hn |].
  apply Forall_map. revert Hrows. apply Forall_impl.
  intros r Hr. rewrite length_map. exact Hr.
Qed.

(** A 2-to-3 linear layer with weights [j - k] and bias [-1/2],
    followed by a [ReLU], on a float32 batch of two samples. *)
Example small_stack :
  Sequential_forward
    [ LinearLayer
        (nn_Linear 2 3
           (fun j k => Finite (inject_Z (Z.of_nat j) - inject_Z (Z.of_nat k)))
           (fun _ => Finite (-1 # 2)));
      ReLULayer ]
    {| matrix_dtype := Float32;
       matrix_cols := 2;
       matrix_rows := [[Finite 1; Finite 2]; [Finite 3; Finite 4]] |}
  = Ok {| matrix_dtype := Float32;
          matrix_cols := 3;
          matrix_rows :=
            [ [Finite 0; Finite (1 # 2); Finite (7 # 2)];
              [Finite 0; Finite (5 # 2); Finite (19 # 2)] ] |}.
Proof. reflexivity. Qed.

(** A sample of the wrong width is refused by the linear layer. *)
Example wrong_width :
  Linear_forward (nn_Linear 2 3 (fun _ _ => Finite 0) (fun _ => Finite 0))
    {| matrix_dtype := Float32;
       matrix_cols := 3;
       matrix_rows := [[Finite 1; Finite 2; Finite 3]] |}
  = Raised (RuntimeError
              "mat1 and mat2 shapes cannot be multiplied (1x3 and 2x3)").
Proof. reflexivity. Qed.

(** A batch of bytes is refused before its width is looked at. *)
Example wrong_dtype :
  Linear_forward (nn_Linear 2 3 (fun _ _ => Finite 0) (fun _ => Finite 0))
    {| matrix_dtype := UInt8;
       matrix_cols := 3;
       matrix_rows := [[Finite 1; Finite 2; Finite 3]] |}
  = Raised (RuntimeError
              "mat1 and mat2 must have the same dtype, but got Byte and Float").
Proof. reflexivity. Qed.

(** An empty batch of images of the wrong size is refused as well. *)
Example wrong_size_empty :
  forward (__init__ Samples.zero_parameters) Samples.empty_batch
  = Raised (RuntimeError
              "mat1 and mat2 shapes cannot be multiplied (0x25 and 784x512)").
Proof. reflexivity. Qed.

(** NaN in the input comes out as NaN: the final [ReLU] does not turn
    it into a number. *)
Example nan_goes_through :
  forward (__init__ Samples.zero_parameters) Samples.nan_batch
  = Ok {| matrix_dtype := Float32;
          matrix_cols := 10;
          matrix_rows := [repeat NaN 10] |}.
Proof. vm_compute. reflexivity. Qed.

Section AnyArithmetic.
Context {arithmetic : Arithmetic}.

(** A linear layer accepts float32 [[n, in]] and gives float32
    [[n, out]]. *)
Lemma Linear_shape (in_f out_f : nat) (w : nat -> nat -> float)
    (b : nat -> float) (x : matrix) (n : nat) :
  matrix_dtype x = Float32 ->
  matrix_shape x n in_f = true ->
  exists y, Linear_forward (nn_Linear in_f out_f w b) x = Ok y
            /\ matrix_dtype y = Float32
            /\ matrix_shape y n out_f = true.
Proof.
  intros Hd Hx. unfold Linear_forward. rewrite Hd. cbn [is_float32 negb].
  apply matrix_shape_spec in Hx as [Hc Hx].
  apply has_shape2_spec in Hx as [Hn _].
  cbn [in_features out_features nn_Linear]. rewrite Hc, Nat.eqb_refl.
  eexists. split; [reflexivity |]. split; [reflexivity |].
  apply matrix_shape_spec. cbn [matrix_cols matrix_rows].
  split; [reflexivity |].
  apply has_shape2_spec. rewrite length_map. split; [exact Hn |].
  apply Forall_map, Forall_forall. intros r _.
  cbn [weight bias nn_Linear].
  rewrite length_map, length_combine, !length_map, !length_seq.
  apply Nat.min_id.
Qed.

(** A batch of another element type is refused by a linear layer. *)
Lemma Linear_dtype (l : Linear) (x : matrix) :
  is_float32 (matrix_dtype x) = false ->
  Linear_forward l x = Raised (dtype_error (matrix_dtype x)).
Proof.
  intros Hd. unfold Linear_forward. rewrite Hd. reflexivity.
Qed.

(** A linear layer followed by a [ReLU]. *)
Lemma Linear_ReLU_shape (in_f out_f : nat) (w : nat -> nat -> float)
    (b : nat -> float) (rest : list layer) (x : matrix) (n : nat) :
  matrix_dtype x = Float32 ->
  matrix_shape x n in_f = true ->
  exists y,
    matrix_dtype y = Float32
    /\ matrix_shape y n out_f = true
    /\ never_negative (matrix_rows y)
    /\ Sequential_forward
         (LinearLayer (nn_Linear in_f out_f w b) :: ReLULayer :: rest) x
       = Sequential_forward rest y.
Proof.
  intros Hd Hx.
  destruct (Linear_shape in_f out_f w b x n Hd Hx) as (y & Hy & Hdy & Hshape).
  exists (ReLU_forward y).
  split; [exact Hdy |].
  split; [apply ReLU_shape; exact Hshape |].
  split; [apply ReLU_never_negative |].
  cbn [Sequential_forward layer_forward]. rewrite Hy. reflexivity.
Qed.

(** The three linear-and-ReLU stages on a float32 batch of 784
    columns. *)
Lemma stack_on_784 (p : parameters) (x : matrix) (N : nat) :
  matrix_dtype x = Float32 ->
  matrix_shape x N (28 * 28) = true ->
  exists logits,
    Sequential_forward (linear_relu_stack (__init__ p)) x = Ok logits
    /\ matrix_dtype logits = Float32
    /\ matrix_shape logits N 10 = true
    /\ never_negative (matrix_rows logits).
Proof.
  intros Hd Hx. unfold __init__. cbn [linear_relu_stack].
  destruct (Linear_ReLU_shape _ 512 (w1 p) (b1 p)
              [ LinearLayer (nn_Linear 512 512 (w2 p) (b2 p)); ReLULayer;
                LinearLayer (nn_Linear 512 10 (w3 p) (b3 p)); ReLULayer ]
              _ _ Hd Hx) as (y1 & Hd1 & H1 & _ & ->).
  destruct (Linear_ReLU_shape _ 512 (w2 p) (b2 p)
              [ LinearLayer (nn_Linear 512 10 (w3 p) (b3 p)); ReLULayer ]
              _ _ Hd1 H1) as (y2 & Hd2 & H2 & _ & ->).
  destruct (Linear_ReLU_shape _ 10 (w3 p) (b3 p) [] _ _ Hd2 H2)
    as (y3 & Hd3 & H3 & Hsign & ->).
  exists y3. repeat split; assumption.
Qed.

(** A batch that is not float32 is refused by the first linear layer,
    whatever its shape. *)
Lemma forward_dtype (p : parameters) (x : images) :
  is_float32 (images_dtype x) = false ->
  forward (__init__ p) x = Raised (dtype_error (images_dtype x)).
Proof.
  intros Hd. unfold forward.
  change (flatten (__init__ p)) with Flatten_forward.
  unfold __init__. cbn [linear_relu_stack Sequential_forward layer_forward].
  rewrite Linear_dtype by exact Hd. reflexivity.
Qed.

(** C9, amended: for every batch [x] of shape [[N, 28, 28]], all values
    of the parameters and whatever the rounding of the arithmetic: if
    [x] is float32, [forward(x)] returns a float32 tensor of shape
    [[N, 10]] none of whose components is below zero (each is at least
    zero, or NaN); if [x] has another element type, [forward(x)] raises
    the [RuntimeError] of the first linear layer about that type. *)
Theorem forward_shape_and_sign (p : parameters) (x : images) (N : nat) :
  images_shape x N 28 28 = true ->
  match images_dtype x with
  | Float32 =>
      exists logits,
        forward (__init__ p) x = Ok logits
        /\ matrix_dtype logits = Float32
        /\ matrix_shape logits N 10 = true
        /\ never_negative (matrix_rows logits)
  | other => forward (__init__ p) x = Raised (dtype_error other)
  end.
Proof.
  intros Hx.
  destruct (images_dtype x) eqn:Hd;
    try (rewrite <- Hd; apply forward_dtype; rewrite Hd; reflexivity).
  apply Flatten_shape in Hx.
  destruct (stack_on_784 p (Flatten_forward x) N Hd Hx)
    as (logits & Hrun & Hdl & Hshape & Hsign).
  exists logits. split; [| repeat split; assumption].
  unfold forward. change (flatten (__init__ p)) with Flatten_forward.
  rewrite Hrun. reflexivity.
Qed.

End AnyArithmetic.

(** C9 fails as stated: a batch of one 28x28 image held as bytes, the
    element type of an image file, is refused. *)
Lemma forward_refuses_bytes : ~ Spec.forward_always_nonnegative.
Proof.
  intros Hall.
  destruct (Hall exact Samples.zero_parameters Samples.byte_batch 1%nat eq_refl)
    as (logits & Hrun & _).
  rewrite (forward_dtype Samples.zero_parameters Samples.byte_batch eq_refl)
    in Hrun.
  discriminate Hrun.
Qed.

(** A float32 batch of one blank image through a network of zero
    parameters, with exact arithmetic. *)
Lemma forward_shape_and_sign_witness :
  images_shape Samples.blank_batch 1 28 28 = true
  /\ exists logits,
       forward (__init__ Samples.zero_parameters) Samples.blank_batch
       = Ok logits
       /\ matrix_dtype logits = Float32
       /\ matrix_shape logits 1 10 = true
       /\ never_negative (matrix_rows logits).
Proof.
  split; [reflexivity |].
  apply (forward_shape_and_sign (arithmetic := exact)
           Samples.zero_parameters Samples.blank_batch 1).
  reflexivity.
Defined.

End NetworkFacts.

(** * Further properties *)

(** ** More on the curve and its loss *)

Module CurveMore.
Local Open Scope R_scope.

Lemma two_turns (t : R) : 2 * (t + 2 * PI) = 2 * t + 2 * INR 2 * PI.
Proof. simpl. ring. Qed.

Lemma one_turn (t : R) : t + 2 * PI = t + 2 * INR 1 * PI.
Proof. simpl. ring. Qed.

(** X1: [curve] has period [2 pi], and so has [loss]: the hundred
    points of [linspace(0, 2 pi)] go once around the whole curve. *)
Theorem curve_periodic (t : R) :
  Curve.curve (t + 2 * PI) = Curve.curve t
  /\ Curve.loss (t + 2 * PI) = Curve.loss t.
Proof.
  assert (Hc : Curve.curve (t + 2 * PI) = Curve.curve t).
  { unfold Curve.curve.
    rewrite two_turns, cos_period.
    rewrite one_turn, sin_period, cos_period.
    reflexivity. }
  split; [exact Hc |].
  unfold Curve.loss. rewrite Hc. reflexivity.
Qed.

(** The second coordinate in terms of [cos t] alone. *)
Lemma curve_y_in_cos (t : R) :
  snd (Curve.curve t) = 2 * cos t * cos t + 2 * cos t - 0.25.
Proof.
  unfold Curve.curve; simpl. rewrite cos_2a_cos. lra.
Qed.

(** X2: every point of the curve lies in the box
    [-1.5 <= x <= 0.5], [-0.75 <= y <= 3.75], and its distance to the
    origin is at most [4.25]. *)
Theorem curve_bounded (t : R) :
  -1.5 <= fst (Curve.curve t) <= 0.5
  /\ -0.75 <= snd (Curve.curve t) <= 3.75
  /\ Curve.loss t <= 4.25.
Proof.
  pose proof (SIN_bound t) as [Hs1 Hs2].
  pose proof (COS_bound t) as [Hc1 Hc2].
  pose proof (curve_y_in_cos t) as Hy.
  assert (Hx : -1.5 <= fst (Curve.curve t) <= 0.5).
  { unfold Curve.curve; simpl. lra. }
  assert (Hyb : -0.75 <= snd (Curve.curve t) <= 3.75).
  { rewrite Hy.
    pose proof (Rle_0_sqr (cos t + 0.5)) as Hsq. unfold Rsqr in Hsq.
    assert (Hprod : 0 <= (1 - cos t) * (cos t + 2))
      by (apply Rmult_le_pos; lra).
    split; lra. }
  split; [exact Hx |]. split; [exact Hyb |].
  unfold Curve.loss. destruct (Curve.curve t) as [x y]; simpl in *.
  replace 4.25 with (sqrt (4.25 * 4.25)) by (apply sqrt_square; lra).
  apply sqrt_le_1_alt. nra.
Qed.

(** The squared distance from the origin to the curve is positive. *)
Lemma square_distance_positive (t : R) :
  0 < (fst (Curve.curve t) - 0) ^ 2 + (snd (Curve.curve t) - 0) ^ 2.
Proof.
  pose proof (sin2_cos2 t) as Hsc. unfold Rsqr in Hsc.
  pose proof (curve_y_in_cos t) as Hy.
  assert (Hx : fst (Curve.curve t) = sin t - 0.5) by reflexivity.
  destruct (Curve.curve t) as [x y]; simpl in *.
  destruct (Req_dec x 0) as [Hx0 | Hx0].
  - assert (Hy0 : y <> 0).
    { intros Hy0.
      assert (Hs : sin t = 0.5) by lra.
      rewrite Hs in Hsc.
      assert (Hc : cos t = - 0.625) by nra.
      rewrite Hc in Hsc. lra. }
    nra.
  - nra.
Qed.

(** X3: the curve does not pass through the origin: [loss(t)] is
    positive for every [t], so the square root in [loss] is taken away
    from zero, where it has a derivative. *)
Theorem loss_positive (t : R) : 0 < Curve.loss t.
Proof.
  pose proof (square_distance_positive t) as Hpos.
  unfold Curve.loss.
  destruct (Curve.curve t) as [x y]; simpl in Hpos.
  apply sqrt_lt_R0. exact Hpos.
Qed.

Lemma derivable_pt_lim_value (f : R -> R) (x l l' : R) :
  derivable_pt_lim f x l -> l = l' -> derivable_pt_lim f x l'.
Proof. intros H <-. exact H. Qed.

Lemma derive_x (t : R) : derivable_pt_lim (fun u => sin u - 0.5) t (cos t).
Proof.
  apply (derivable_pt_lim_ext (minus_fct sin (fct_cte 0.5)));
    [intros z; reflexivity |].
  apply (derivable_pt_lim_value _ _ (cos t - 0)); [| ring].
  apply derivable_pt_lim_minus;
    [apply derivable_pt_lim_sin | apply derivable_pt_lim_const].
Qed.

Lemma derive_cos_double (t : R) :
  derivable_pt_lim (fun u => cos (2 * u)) t (- (2 * sin (2 * t))).
Proof.
  apply (derivable_pt_lim_ext (comp cos (mult_real_fct 2 id)));
    [intros z; reflexivity |].
  apply (derivable_pt_lim_value _ _ (- sin (2 * t) * (2 * 1))); [| ring].
  apply (derivable_pt_lim_comp (mult_real_fct 2 id) cos).
  - apply derivable_pt_lim_scal, derivable_pt_lim_id.
  - apply derivable_pt_lim_cos.
Qed.

Lemma derive_y (t : R) :
  derivable_pt_lim (fun u => cos u * 2 + cos (2 * u) + 0.75) t
    (- (2 * sin t) - 2 * sin (2 * t)).
Proof.
  apply (derivable_pt_lim_ext
           (plus_fct (plus_fct (mult_fct cos (fct_cte 2))
                               (fun u => cos (2 * u)))
                     (fct_cte 0.75)));
    [intros z; reflexivity |].
  apply (derivable_pt_lim_value _ _
           ((- sin t * fct_cte 2 t + cos t * 0) + - (2 * sin (2 * t)) + 0));
    [| unfold fct_cte; ring].
  apply derivable_pt_lim_plus; [| apply derivable_pt_lim_const].
  apply derivable_pt_lim_plus; [| apply derive_cos_double].
  apply derivable_pt_lim_mult;
    [apply derivable_pt_lim_cos | apply derivable_pt_lim_const].
Qed.

(** The squared distance and its derivative. *)
Lemma derive_square_distance (t : R) :
  derivable_pt_lim
    (fun u => (sin u - 0.5 - 0) ^ 2 + (cos u * 2 + cos (2 * u) + 0.75 - 0) ^ 2) t
    (2 * (fst (Curve.curve t) * cos t
          + snd (Curve.curve t) * (- (2 * sin t) - 2 * sin (2 * t)))).
Proof.
  set (x := fun u => sin u - 0.5).
  set (y := fun u => cos u * 2 + cos (2 * u) + 0.75).
  apply (derivable_pt_lim_ext (plus_fct (mult_fct x x) (mult_fct y y))).
  { intros z. unfold plus_fct, mult_fct, x, y. ring. }
  apply (derivable_pt_lim_value _ _
           ((cos t * x t + x t * cos t)
            + ((- (2 * sin t) - 2 * sin (2 * t)) * y t
               + y t * (- (2 * sin t) - 2 * sin (2 * t))))).
  - apply derivable_pt_lim_plus; apply derivable_pt_lim_mult;
      try apply derive_x; apply derive_y.
  - unfold Curve.curve, x, y; simpl. ring.
Qed.

(** X4: [loss] has a derivative at every [t], the gradient that
    [dist.backward()] asks for:
    [(x cos t + y (-2 sin t - 2 sin 2t)) / loss(t)]
    with [(x, y) = curve(t)]. *)
Theorem loss_gradient (t : R) :
  derivable_pt_lim Curve.loss t (Descent.loss_derivative t).
Proof.
  set (g := fun u => (sin u - 0.5 - 0) ^ 2
                     + (cos u * 2 + cos (2 * u) + 0.75 - 0) ^ 2).
  assert (Hloss : forall u, Curve.loss u = sqrt (g u)) by (intros u; reflexivity).
  assert (Hg : 0 < g t) by exact (square_distance_positive t).
  assert (Hpos : 0 < Curve.loss t) by (rewrite Hloss; apply sqrt_lt_R0, Hg).
  apply (derivable_pt_lim_ext (comp sqrt g)); [intros z; reflexivity |].
  apply (derivable_pt_lim_value _ _
           (/ (2 * sqrt (g t))
            * (2 * (fst (Curve.curve t) * cos t
                    + snd (Curve.curve t)
                      * (- (2 * sin t) - 2 * sin (2 * t)))))).
  - apply (derivable_pt_lim_comp g sqrt).
    + apply derive_square_distance.
    + apply derivable_pt_lim_sqrt. exact Hg.
  - unfold Descent.loss_derivative. rewrite Hloss in *.
    destruct (Curve.curve t) as [x y]; simpl fst; simpl snd.
    field. apply Rgt_not_eq. exact Hpos.
Qed.

End CurveMore.

(** ** The gradient-descent loop *)

Module DescentFacts.
Import Descent.
Local Open Scope R_scope.

(** Cauchy-Schwarz for two pairs. *)
Lemma pair_product_bound (x y a b : R) :
  (x * a + y * b) ^ 2 <= (x ^ 2 + y ^ 2) * (a ^ 2 + b ^ 2).
Proof.
  pose proof (pow2_ge_0 (x * b - y * a)) as H. nra.
Qed.

(** The gradient of the loss is at most 4.2 in absolute value. *)
Lemma loss_derivative_abs (t : R) : Rabs (loss_derivative t) <= 4.2.
Proof.
  pose proof (CurveMore.square_distance_positive t) as Hsq.
  pose proof (SIN_bound t) as [Hs1 Hs2].
  pose proof (SIN_bound (2 * t)) as [Hd1 Hd2].
  pose proof (COS_bound t) as [Hc1 Hc2].
  unfold loss_derivative. unfold Curve.loss.
  destruct (Curve.curve t) as [x y]; simpl in Hsq.
  set (a := cos t) in *.
  set (b := - (2 * sin t) - 2 * sin (2 * t)) in *.
  set (n := x * a + y * b).
  set (d := sqrt ((x - 0) ^ 2 + (y - 0) ^ 2)) in *.
  assert (Hpos : 0 < d) by (apply sqrt_lt_R0, Hsq).
  assert (Hdd : d * d = x ^ 2 + y ^ 2).
  { unfold d. rewrite sqrt_sqrt; [ring | nra]. }
  assert (Hab : a ^ 2 + b ^ 2 <= 17) by (unfold b; nra).
  pose proof (pair_product_bound x y a b) as Hcs. fold n in Hcs.
  assert (Hn : Rsqr n <= Rsqr (4.2 * d)).
  { unfold Rsqr. pose proof (pow2_ge_0 x). pose proof (pow2_ge_0 y). nra. }
  apply Rsqr_le_abs_0 in Hn.
  rewrite (Rabs_pos_eq (4.2 * d)) in Hn by lra.
  unfold Rdiv. rewrite Rabs_mult, Rabs_inv, (Rabs_pos_eq d) by lra.
  apply (Rmult_le_reg_r d); [exact Hpos |].
  rewrite Rmult_assoc, Rinv_l, Rmult_1_r by lra.
  exact Hn.
Qed.

(** X5: the gradient of the loss is at most 4.2 in absolute value at
    every [t]; with [lr=0.05] one step of the optimizer moves [t] by at
    most 0.21. *)
Theorem loss_derivative_bounded (t : R) :
  Rabs (loss_derivative t) <= 4.2
  /\ Rabs (sgd_step loss_derivative t - t) <= 0.21.
Proof.
  pose proof (loss_derivative_abs t) as Hd.
  split; [exact Hd |].
  unfold sgd_step, lr.
  replace (t - 0.05 * loss_derivative t - t) with (- (0.05 * loss_derivative t))
    by ring.
  rewrite Rabs_Ropp, Rabs_mult, (Rabs_pos_eq 0.05) by lra.
  lra.
Qed.

(** X6: when the gradient is at most [G] in absolute value, the loop
    prints one line per step and, after [n] steps, has moved [t] by at
    most [n * 0.05 * G]. *)
Theorem descent_travel_bounded (grad : R -> R) (G : R) (steps : list nat)
    (t0 : R) :
  (forall t, Rabs (grad t) <= G) ->
  List.length (fst (descend grad steps t0)) = List.length steps
  /\ Rabs (snd (descend grad steps t0) - t0)
     <= INR (List.length steps) * (lr * G).
Proof.
  intros Hg. revert t0.
  induction steps as [| k steps IH]; intros t0.
  - simpl. rewrite Rminus_diag, Rabs_R0. split; [reflexivity | lra].
  - cbn [descend]. specialize (IH (sgd_step grad t0)).
    destruct (descend grad steps (sgd_step grad t0)) as [lines t'].
    cbn [fst snd] in *. destruct IH as [Hlen Htravel].
    split; [simpl; rewrite Hlen; reflexivity |].
    replace (t' - t0) with ((t' - sgd_step grad t0) + (sgd_step grad t0 - t0))
      by ring.
    eapply Rle_trans; [apply Rabs_triang |].
    assert (Hstep : Rabs (sgd_step grad t0 - t0) <= lr * G).
    { unfold sgd_step.
      replace (t0 - lr * grad t0 - t0) with (- (lr * grad t0)) by ring.
      rewrite Rabs_Ropp, Rabs_mult, (Rabs_pos_eq lr) by (unfold lr; lra).
      apply Rmult_le_compat_l; [unfold lr; lra | apply Hg]. }
    change (List.length (k :: steps)) with (S (List.length steps)).
    rewrite S_INR. lra.
Qed.

(** The cell as written, with the gradient of the loss: twenty lines,
    and a final [t] within 4.2 of the start 2.1. *)
Lemma descent_travel_bounded_witness :
  (forall t, Rabs (loss_derivative t) <= 4.2)
  /\ List.length (fst (cell loss_derivative)) = 20%nat
  /\ Rabs (fst (snd (cell loss_derivative)) - 2.1) <= 4.2.
Proof.
  split; [exact loss_derivative_abs |].
  destruct (descent_travel_bounded loss_derivative 4.2 (seq 0 20) 2.1
              loss_derivative_abs) as [Hlen Htravel].
  unfold cell, optimize.
  destruct (descend loss_derivative (seq 0 20) 2.1) as [lines t].
  cbn [fst snd] in *.
  split; [rewrite Hlen; reflexivity |].
  rewrite length_seq in Htravel. unfold lr in Htravel.
  simpl INR in Htravel. lra.
Defined.

(** X7: started at a point where the gradient vanishes, the loop never
    moves: every line shows the start and its loss, and the final [t] is
    the start. *)
Theorem descent_stays_at_critical_point (grad : R -> R) (steps : list nat)
    (t0 : R) :
  grad t0 = 0 ->
  descend grad steps t0
  = (map (fun k => (k, t0, Curve.loss t0)) steps, t0).
Proof.
  intros Hzero.
  assert (Hstep : sgd_step grad t0 = t0).
  { unfold sgd_step. rewrite Hzero. ring. }
  induction steps as [| k steps IH]; [reflexivity |].
  cbn [descend map]. rewrite Hstep, IH. reflexivity.
Qed.

(** A gradient that vanishes everywhere. *)
Lemma descent_stays_at_critical_point_witness :
  (fun _ : R => 0) 2.1 = 0
  /\ descend (fun _ => 0) (seq 0 20) 2.1
     = (map (fun k => (k, 2.1, Curve.loss 2.1)) (seq 0 20), 2.1).
Proof.
  split; [reflexivity |].
  apply (descent_stays_at_critical_point (fun _ => 0) (seq 0 20) 2.1).
  reflexivity.
Defined.

End DescentFacts.

(** ** More on the dataset wrapper *)

Module DatasetMore.
Import Exn Tensor Traverse.

(** Converting to float twice is converting once. *)
Lemma float_idempotent : forall t : tensor, float_ (float_ t) = float_ t.
Proof.
  fix IH 1.
  intros [s | rs]; simpl.
  - destruct s; reflexivity.
  - f_equal.
    induction rs as [| r rs IHrs]; simpl; [reflexivity |].
    rewrite IH, IHrs. reflexivity.
Qed.

(** X8: a dataset built from the images and labels of a dataset is
    that dataset again: [__init__] converts the images once and for
    all and keeps the labels. *)
Theorem rewrapping_changes_nothing (images labels : tensor)
    (ds : MNISTDataset.t tensor) :
  MNISTDataset.__init__ images labels = Ok ds ->
  MNISTDataset.__init__ (MNISTDataset.images ds) (MNISTDataset.labels ds)
  = Ok ds.
Proof.
  unfold MNISTDataset.__init__; simpl.
  intros Hinit. injection Hinit as <-. simpl.
  rewrite float_idempotent. reflexivity.
Qed.

Lemma rewrapping_changes_nothing_witness :
  MNISTDataset.__init__ Samples.two_images Samples.two_labels
  = Ok Samples.two_samples
  /\ MNISTDataset.__init__ (MNISTDataset.images Samples.two_samples)
                           (MNISTDataset.labels Samples.two_samples)
     = Ok Samples.two_samples.
Proof.
  split; [reflexivity |].
  apply (rewrapping_changes_nothing Samples.two_images Samples.two_labels).
  reflexivity.
Defined.

(** Indexing at a position of the leading dimension. *)
Lemma getitem_nth (rs : list tensor) (i : nat) (r : tensor) :
  nth_error rs i = Some r -> getitem (Rows rs) (Z.of_nat i) = Ok r.
Proof.
  intros Hnth.
  assert (Hlt : (i < List.length rs)%nat)
    by (apply nth_error_Some; congruence).
  unfold getitem.
  replace (- Z.of_nat (List.length rs) <=? Z.of_nat i)%Z with true
    by (symmetry; apply Z.leb_le; lia).
  replace (Z.of_nat i <? Z.of_nat (List.length rs))%Z with true
    by (symmetry; apply Z.ltb_lt; lia).
  replace (Z.of_nat i <? 0)%Z with false
    by (symmetry; apply Z.ltb_ge; lia).
  simpl. rewrite Nat2Z.id, Hnth. reflexivity.
Qed.

(** Reading positions [k], [k+1], ... of a list through a function that
    finds each of them. *)
Lemma for_each_from {A : Type} (f : Z -> result A) (l : list A) :
  forall k,
    (forall i a, nth_error l i = Some a -> f (Z.of_nat (k + i)) = Ok a) ->
    for_each f (map Z.of_nat (seq k (List.length l))) = Ok l.
Proof.
  induction l as [| a l IH]; intros k Hf; [reflexivity |].
  simpl. rewrite <- (Nat.add_0_r k) at 1.
  rewrite (Hf 0%nat a eq_refl). simpl.
  rewrite IH; [reflexivity |].
  intros i b Hb. rewrite Nat.add_succ_comm. apply (Hf (S i)). exact Hb.
Qed.

(** Reading stops at the first index that raises. *)
Lemma for_each_raises {A : Type} (f : Z -> result A) (e : exn) :
  forall (pre : list Z) (i : Z) (post : list Z),
    (forall j, In j pre -> exists a, f j = Ok a) ->
    f i = Raised e ->
    for_each f (pre ++ i :: post) = Raised e.
Proof.
  induction pre as [| j pre IH]; intros i post Hpre Hi; simpl.
  - rewrite Hi. reflexivity.
  - destruct (Hpre j (or_introl eq_refl)) as [a ->]. simpl.
    rewrite (IH i post); [reflexivity | | exact Hi].
    intros j' Hj'. apply Hpre. right. exact Hj'.
Qed.

Lemma len_rows (t : tensor) (n : Z) :
  len t = Ok n -> t = Rows (rows t) /\ n = Z.of_nat (List.length (rows t)).
Proof.
  destruct t as [s | rs]; simpl; intros H; [discriminate |].
  injection H as <-. split; reflexivity.
Qed.

(** X9: read in order, index by index up to [len(dataset)], a dataset
    of images and labels of the same leading length gives every sample
    once: the converted images, in order, each with its label. *)
Theorem samples_in_order (images labels : tensor) (n : Z)
    (ds : MNISTDataset.t tensor) :
  len images = Ok n ->
  len labels = Ok n ->
  MNISTDataset.__init__ images labels = Ok ds ->
  samples ds = Ok (combine (map float_ (rows images)) (rows labels)).
Proof.
  intros Hi Hl Hinit.
  apply len_rows in Hi as [Hi Hni]. apply len_rows in Hl as [Hl Hnl].
  unfold MNISTDataset.__init__ in Hinit; simpl in Hinit.
  injection Hinit as <-.
  unfold samples, MNISTDataset.__len__; simpl.
  rewrite Hl at 1. simpl. unfold range. rewrite Nat2Z.id.
  assert (Hlen : List.length (rows labels)
                 = List.length (combine (map float_ (rows images)) (rows labels))).
  { rewrite length_combine, length_map. lia. }
  rewrite Hlen.
  apply for_each_from.
  intros i [im lb] Hnth. simpl.
  unfold MNISTDataset.__getitem__; simpl.
  assert (Him : nth_error (map float_ (rows images)) i = Some im
                /\ nth_error (rows labels) i = Some lb).
  { revert i Hnth.
    generalize (map float_ (rows images)) (rows labels).
    induction l as [| a l IH]; intros [| b l0] [| i] H;
      simpl in *; try discriminate.
    - injection H as -> ->. split; reflexivity.
    - apply IH. exact H. }
  destruct Him as [Him Hlb].
  rewrite Hi at 1. simpl float_.
  rewrite (getitem_nth _ _ _ Him). simpl.
  rewrite Hl at 1.
  rewrite (getitem_nth _ _ _ Hlb). reflexivity.
Qed.

Lemma samples_in_order_witness :
  len Samples.two_images = Ok 2%Z
  /\ len Samples.two_labels = Ok 2%Z
  /\ MNISTDataset.__init__ Samples.two_images Samples.two_labels
     = Ok Samples.two_samples
  /\ samples Samples.two_samples
     = Ok (combine (map float_ (rows Samples.two_images))
                   (rows Samples.two_labels)).
Proof.
  split; [reflexivity |]. split; [reflexivity |]. split; [reflexivity |].
  apply (samples_in_order Samples.two_images Samples.two_labels 2);
    reflexivity.
Defined.

(** Within the shorter of the two lengths [__getitem__] succeeds. *)
Lemma getitem_both (images labels : tensor) (m n i : Z) :
  len images = Ok m -> len labels = Ok n ->
  (0 <= i < m)%Z -> (m <= n)%Z ->
  exists s,
    MNISTDataset.__getitem__
      {| MNISTDataset.images := float_ images; MNISTDataset.labels := labels |} i
    = Ok s.
Proof.
  intros Hi Hl Him Hmn.
  destruct (DatasetFacts.getitem_in_range images i) as [im Hgi].
  { apply (DatasetFacts.len_in_range _ m); [exact Hi | lia]. }
  destruct (DatasetFacts.getitem_in_range labels i) as [lb Hgl].
  { apply (DatasetFacts.len_in_range _ n); [exact Hl | lia]. }
  exists (float_ im, lb).
  unfold MNISTDataset.__getitem__; simpl.
  rewrite DatasetFacts.getitem_float, Hgi; simpl. rewrite Hgl. reflexivity.
Qed.

(** X10: [__init__] does not compare the lengths of its arguments.
    With fewer images than labels the dataset is built, reports the
    number of labels as its length, serves the indices below the number
    of images, and raises [IndexError] at the first index past them,
    which a reader going up to [len(dataset)] does reach. *)
Theorem length_mismatch_surfaces_late (images labels : tensor) (m n : Z) :
  len images = Ok m ->
  len labels = Ok n ->
  (m < n)%Z ->
  exists ds,
    MNISTDataset.__init__ images labels = Ok ds
    /\ MNISTDataset.__len__ ds = Ok n
    /\ (0 <= m < n)%Z
    /\ (forall i, (0 <= i < m)%Z ->
          exists s, MNISTDataset.__getitem__ ds i = Ok s)
    /\ MNISTDataset.__getitem__ ds m
       = Raised (IndexError "index out of range")
    /\ samples ds = Raised (IndexError "index out of range").
Proof.
  intros Hi Hl Hmn.
  pose proof (len_rows _ _ Hi) as [Hri Hm].
  pose proof (len_rows _ _ Hl) as [Hrl Hn].
  eexists. split; [reflexivity |].
  split; [exact Hl |].
  split; [lia |].
  split; [intros i Him; apply (getitem_both images labels m n); auto; lia |].
  assert (Hraise :
            MNISTDataset.__getitem__
              {| MNISTDataset.images := float_ images;
                 MNISTDataset.labels := labels |} m
            = Raised (IndexError "index out of range")).
  { unfold MNISTDataset.__getitem__; simpl.
    rewrite DatasetFacts.getitem_float.
    rewrite Hri at 1. unfold getitem.
    replace (m <? Z.of_nat (List.length (rows images)))%Z with false
      by (symmetry; apply Z.ltb_ge; lia).
    rewrite andb_false_r. reflexivity. }
  split; [exact Hraise |].
  unfold samples, MNISTDataset.__len__; simpl. rewrite Hl; simpl.
  unfold range.
  replace (Z.to_nat n)
    with (List.length (rows images) + S (Z.to_nat n - S (List.length (rows images))))%nat
    by lia.
  rewrite seq_app, map_app. cbn [seq map].
  apply for_each_raises.
  - intros j Hj. apply in_map_iff in Hj as (i & <- & Hin).
    apply in_seq in Hin.
    apply (getitem_both images labels m n); auto; lia.
  - rewrite Nat.add_0_l, <- Hm. exact Hraise.
Qed.

(** One image, two labels. *)
Lemma length_mismatch_surfaces_late_witness :
  len (Rows [Rows [Item (SInt 5)]]) = Ok 1%Z
  /\ len Samples.two_labels = Ok 2%Z
  /\ (1 < 2)%Z
  /\ exists ds,
       MNISTDataset.__init__ (Rows [Rows [Item (SInt 5)]]) Samples.two_labels
       = Ok ds
       /\ MNISTDataset.__len__ ds = Ok 2%Z
       /\ MNISTDataset.__getitem__ ds 1
          = Raised (IndexError "index out of range").
Proof.
  split; [reflexivity |]. split; [reflexivity |]. split; [lia |].
  destruct (length_mismatch_surfaces_late
              (Rows [Rows [Item (SInt 5)]]) Samples.two_labels 1 2
              eq_refl eq_refl eq_refl)
    as (ds & Hinit & Hlen & _ & _ & Hget & _).
  exists ds. auto.
Defined.

End DatasetMore.

(** ** More on the network *)

Module NetworkMore.
Import Exn NeuralNetwork NetworkFacts.

Section AnyArithmetic.
Context {arithmetic : Arithmetic}.

(** X11: [forward] does not check that the images are 28 by 28, only,
    through the first linear layer, that the batch is float32 and each
    image has 784 elements: a float32 batch of shape [[N, h, w]] with
    [h * w = 784] is accepted and gives a float32 [[N, 10]] tensor with
    no element below zero. *)
Theorem forward_accepts_784_elements (p : parameters) (x : images)
    (N h w : nat) :
  images_dtype x = Float32 ->
  images_shape x N h w = true ->
  (h * w = 784)%nat ->
  exists logits,
    forward (__init__ p) x = Ok logits
    /\ matrix_dtype logits = Float32
    /\ matrix_shape logits N 10 = true
    /\ never_negative (matrix_rows logits).
Proof.
  intros Hd Hx Hhw. apply Flatten_shape in Hx.
  replace (h * w)%nat with (28 * 28)%nat in Hx by (rewrite Hhw; reflexivity).
  destruct (stack_on_784 p (Flatten_forward x) N Hd Hx)
    as (logits & Hrun & Hdl & Hshape & Hsign).
  exists logits. split; [| repeat split; assumption].
  unfold forward. change (flatten (__init__ p)) with Flatten_forward.
  rewrite Hrun. reflexivity.
Qed.

(** X12: a batch of images with another number of elements than 784
    is refused by the first linear layer: [forward] raises its
    [RuntimeError], about the shapes if the batch is float32 and about
    the element type if it is not. *)
Theorem forward_refuses_other_sizes (p : parameters) (x : images)
    (N h w : nat) :
  images_shape x N h w = true ->
  (h * w <> 784)%nat ->
  forward (__init__ p) x
  = Raised (if is_float32 (images_dtype x)
            then shape_error N (h * w) 784 512
            else dtype_error (images_dtype x)).
Proof.
  intros Hx Hhw.
  destruct (is_float32 (images_dtype x)) eqn:Hd;
    [| apply forward_dtype; exact Hd].
  apply Flatten_shape in Hx.
  apply matrix_shape_spec in Hx as [Hcols Hx].
  apply has_shape2_spec in Hx as [Hlen _].
  unfold forward. change (flatten (__init__ p)) with Flatten_forward.
  unfold __init__. cbn [linear_relu_stack Sequential_forward layer_forward].
  unfold Linear_forward.
  change (matrix_dtype (Flatten_forward x)) with (images_dtype x).
  rewrite Hd, Hcols, Hlen. cbn [negb in_features out_features nn_Linear].
  replace (h * w =? 28 * 28)%nat with false
    by (symmetry; apply Nat.eqb_neq; exact Hhw).
  reflexivity.
Qed.

(** A layer works row by row. *)
Lemma layer_rowwise (m : layer) (x y : matrix) :
  layer_forward m x = Ok y ->
  forall i r, nth_error (matrix_rows x) i = Some r ->
    exists row,
      nth_error (matrix_rows y) i = Some row
      /\ layer_forward m {| matrix_dtype := matrix_dtype x;
                            matrix_cols := matrix_cols x;
                            matrix_rows := [r] |}
         = Ok {| matrix_dtype := matrix_dtype y;
                 matrix_cols := matrix_cols y;
                 matrix_rows := [row] |}.
Proof.
  destruct m as [l |]; cbn [layer_forward].
  - unfold Linear_forward. cbn [matrix_dtype matrix_cols matrix_rows].
    destruct (negb (is_float32 (matrix_dtype x))); [discriminate |].
    destruct (matrix_cols x =? in_features l)%nat; [| discriminate].
    intros Hy i r Hr. injection Hy as <-.
    cbn [matrix_dtype matrix_cols matrix_rows].
    eexists. split; [apply map_nth_error; exact Hr | reflexivity].
  - intros Hy i r Hr. injection Hy as <-.
    unfold ReLU_forward. cbn [matrix_dtype matrix_cols matrix_rows].
    eexists. split; [apply map_nth_error; exact Hr | reflexivity].
Qed.

Lemma sequential_rowwise (ms : list layer) :
  forall x y, Sequential_forward ms x = Ok y ->
  forall i r, nth_error (matrix_rows x) i = Some r ->
    exists row,
      nth_error (matrix_rows y) i = Some row
      /\ Sequential_forward ms
           {| matrix_dtype := matrix_dtype x;
              matrix_cols := matrix_cols x;
              matrix_rows := [r] |}
         = Ok {| matrix_dtype := matrix_dtype y;
                 matrix_cols := matrix_cols y;
                 matrix_rows := [row] |}.
Proof.
  induction ms as [| m ms IH]; intros x y Hrun i r Hr.
  - injection Hrun as <-. exists r. split; [exact Hr | reflexivity].
  - cbn [Sequential_forward] in *.
    destruct (layer_forward m x) as [x' | e] eqn:Hm; [| discriminate].
    destruct (layer_rowwise m x x' Hm i r Hr) as (r' & Hr' & ->).
    cbn [Exn.bind] in *.
    destruct (IH x' y Hrun i r' Hr') as (row & Hrow & Hone).
    exists row. split; assumption.
Qed.

(** X13: the network treats the images of a batch one by one: the
    output row of an image in a batch is what [forward] gives for that
    image alone, as in [model(X[None,:])]. *)
Theorem forward_per_image (p : parameters) (x : images) (out : matrix) :
  forward (__init__ p) x = Ok out ->
  forall i im, nth_error (images_planes x) i = Some im ->
    exists row,
      nth_error (matrix_rows out) i = Some row
      /\ forward (__init__ p)
           {| images_dtype := images_dtype x;
              images_height := images_height x;
              images_width := images_width x;
              images_planes := [im] |}
         = Ok {| matrix_dtype := matrix_dtype out;
                 matrix_cols := matrix_cols out;
                 matrix_rows := [row] |}.
Proof.
  unfold forward. change (flatten (__init__ p)) with Flatten_forward.
  intros Hrun i im Him.
  destruct (Sequential_forward _ (Flatten_forward x)) as [y | e] eqn:Hseq;
    [| discriminate].
  injection Hrun as <-.
  destruct (sequential_rowwise _ _ _ Hseq i (List.concat im))
    as (row & Hrow & Hone).
  { unfold Flatten_forward. cbn [matrix_rows]. apply map_nth_error. exact Him. }
  exists row. split; [exact Hrow |].
  unfold Flatten_forward in *.
  cbn [map matrix_dtype matrix_cols matrix_rows images_dtype images_height
         images_width images_planes] in *.
  rewrite Hone. reflexivity.
Qed.

End AnyArithmetic.

(** One blank float32 image of 14 rows and 56 columns. *)
Lemma forward_accepts_784_elements_witness :
  images_dtype Toy.wide_batch = Float32
  /\ images_shape Toy.wide_batch 1 14 56 = true
  /\ (14 * 56 = 784)%nat
  /\ exists logits,
       forward (__init__ Samples.zero_parameters) Toy.wide_batch = Ok logits
       /\ matrix_dtype logits = Float32
       /\ matrix_shape logits 1 10 = true
       /\ never_negative (matrix_rows logits).
Proof.
  split; [reflexivity |]. split; [reflexivity |]. split; [reflexivity |].
  apply (forward_accepts_784_elements (arithmetic := exact)
           Samples.zero_parameters Toy.wide_batch 1 14 56); reflexivity.
Defined.

(** One 2 by 2 float32 image. *)
Lemma forward_refuses_other_sizes_witness :
  images_shape Toy.small_batch 1 2 2 = true
  /\ (2 * 2 <> 784)%nat
  /\ forward (__init__ Samples.zero_parameters) Toy.small_batch
     = Raised (RuntimeError
                 "mat1 and mat2 shapes cannot be multiplied (1x4 and 784x512)").
Proof.
  split; [reflexivity |]. split; [lia |].
  apply (forward_refuses_other_sizes (arithmetic := exact)
           Samples.zero_parameters Toy.small_batch 1 2 2);
    [reflexivity | lia].
Defined.

(** A float32 batch of two blank images. *)
Lemma forward_per_image_witness :
  forward (__init__ Samples.zero_parameters) Toy.two_blank = Ok Toy.two_rows
  /\ exists row,
       nth_error (matrix_rows Toy.two_rows) 1 = Some row
       /\ forward (__init__ Samples.zero_parameters)
            {| images_dtype := images_dtype Toy.two_blank;
               images_height := images_height Toy.two_blank;
               images_width := images_width Toy.two_blank;
               images_planes := [Samples.blank_image] |}
          = Ok {| matrix_dtype := matrix_dtype Toy.two_rows;
                  matrix_cols := matrix_cols Toy.two_rows;
                  matrix_rows := [row] |}.
Proof.
  assert (Hrun : forward (__init__ Samples.zero_parameters) Toy.two_blank
                 = Ok Toy.two_rows)
    by (vm_compute; reflexivity).
  split; [exact Hrun |].
  apply (forward_per_image (arithmetic := exact)
           Samples.zero_parameters Toy.two_blank Toy.two_rows Hrun 1%nat).
  reflexivity.
Defined.

End NetworkMore.

(** ** The estimate *)

Module PredictFacts.
Import Exn NeuralNetwork Predict.

Lemma Qltb_lt (a b : Q) : Qltb a b = true -> (a < b)%Q.
Proof.
  unfold Qltb. intros H. apply negb_true_iff in H.
  apply Qnot_le_lt. intros Hle. apply Qle_bool_iff in Hle. congruence.
Qed.

Lemma Qltb_ge (a b : Q) : Qltb a b = false -> (b <= a)%Q.
Proof.
  unfold Qltb. intros H. apply negb_false_iff in H.
  apply Qle_bool_iff. exact H.
Qed.

Lemma Qltb_true (a b : Q) : (a < b)%Q -> Qltb a b = true.
Proof.
  intros Hlt. unfold Qltb. apply negb_true_iff.
  destruct (Qle_bool b a) eqn:Hle; [| reflexivity].
  apply Qle_bool_iff in Hle. exfalso.
  apply (Qlt_irrefl a). eapply Qlt_le_trans; eassumption.
Qed.

Lemma Qltb_false (a b : Q) : (b <= a)%Q -> Qltb a b = false.
Proof.
  intros Hle. unfold Qltb. apply negb_false_iff, Qle_bool_iff. exact Hle.
Qed.

(** The order of the scan: nothing is under itself, what is under is
    not over, and [a <= b < c] gives [a < c]. *)
Lemma not_over_refl (a : float) : not_over a a.
Proof.
  destruct a as [q | | |]; try reflexivity.
  apply Qltb_false, Qle_refl.
Qed.

Lemma under_not_over (a b : float) : under a b -> not_over a b.
Proof.
  unfold under, not_over.
  destruct a as [x | | |], b as [y | | |]; simpl; try congruence.
  intros H. apply Qltb_lt in H. apply Qltb_false, Qlt_le_weak, H.
Qed.

Lemma not_over_under_trans (a b c : float) :
  not_over a b -> under b c -> under a c.
Proof.
  unfold under, not_over.
  destruct a as [x | | |], b as [y | | |], c as [z | | |]; simpl;
    try congruence.
  intros Hab Hbc. apply Qltb_ge in Hab. apply Qltb_lt in Hbc.
  apply Qltb_true. eapply Qle_lt_trans; eassumption.
Qed.

(** The scan returns the first position of a largest element. *)
Lemma argmax_from_ok (l : list float) :
  forall (pre : list float) (best_i : nat) (best : float),
    (best_i < List.length pre)%nat ->
    nth best_i pre NaN = best ->
    (forall q, In q pre -> not_over q best) ->
    (forall j, (j < best_i)%nat -> under (nth j pre NaN) best) ->
    let r := argmax_from best_i best (List.length pre) l in
    (r < List.length (pre ++ l))%nat
    /\ (forall q, In q (pre ++ l) -> not_over q (nth r (pre ++ l) NaN))
    /\ (forall j, (j < r)%nat ->
          under (nth j (pre ++ l) NaN) (nth r (pre ++ l) NaN)).
Proof.
  induction l as [| a l IH]; intros pre best_i best Hi Hbest Hmax Hfirst.
  - simpl. rewrite app_nil_r. subst best. auto.
  - cbn [argmax_from].
    replace (pre ++ a :: l) with ((pre ++ [a]) ++ l)
      by (rewrite <- app_assoc; reflexivity).
    replace (S (List.length pre)) with (List.length (pre ++ [a]))
      by (rewrite length_app; simpl; lia).
    destruct (below best a) eqn:Hcmp.
    + apply IH.
      * rewrite length_app; simpl; lia.
      * rewrite app_nth2, Nat.sub_diag by lia. reflexivity.
      * intros q Hq. apply in_app_or in Hq as [Hq | [<- | []]].
        -- apply under_not_over.
           eapply not_over_under_trans; [apply Hmax, Hq | exact Hcmp].
        -- apply not_over_refl.
      * intros j Hj. rewrite app_nth1 by exact Hj.
        eapply not_over_under_trans; [apply Hmax, nth_In, Hj | exact Hcmp].
    + apply IH.
      * rewrite length_app; simpl; lia.
      * rewrite app_nth1 by exact Hi. exact Hbest.
      * intros q Hq. apply in_app_or in Hq as [Hq | [<- | []]];
          [apply Hmax, Hq | exact Hcmp].
      * intros j Hj. rewrite app_nth1 by lia. apply Hfirst, Hj.
Qed.

(** The scan of a non-empty row. *)
Lemma scan_row (q : float) (l : list float) :
  let r := argmax_from 0 q 1 l in
  (r < List.length (q :: l))%nat
  /\ (forall q', In q' (q :: l) -> not_over q' (nth r (q :: l) NaN))
  /\ (forall j, (j < r)%nat ->
        under (nth j (q :: l) NaN) (nth r (q :: l) NaN)).
Proof.
  apply (argmax_from_ok l [q] 0%nat q).
  - simpl; lia.
  - reflexivity.
  - intros q' [<- | []]. apply not_over_refl.
  - intros j Hj. lia.
Qed.

Section AnyArithmetic.
Context {arithmetic : Arithmetic}.

(** On a float32 28 by 28 image the network gives one row of ten
    outputs, and the estimate is the scan of that row. *)
Lemma estimate_run (p : parameters) (X : plane) :
  has_shape2 X 28 28 = true ->
  exists q l,
    forward (__init__ p) (unsqueeze Float32 X)
    = Ok {| matrix_dtype := Float32;
            matrix_cols := 10;
            matrix_rows := [q :: l] |}
    /\ List.length (q :: l) = 10%nat
    /\ estimate (__init__ p) Float32 X = Ok (argmax_from 0 q 1 l).
Proof.
  intros HX.
  assert (H3 : images_shape (unsqueeze Float32 X) 1 28 28 = true).
  { apply NetworkFacts.images_shape_spec. unfold unsqueeze.
    cbn [images_height images_width images_planes].
    pose proof HX as HX'.
    apply NetworkFacts.has_shape2_spec in HX' as [Hlen Hrows].
    split; [exact Hlen |]. split.
    - destruct X as [| r X']; [discriminate |].
      inversion Hrows; subst. assumption.
    - unfold has_shape3. cbn [List.length forallb Nat.eqb].
      rewrite HX. reflexivity. }
  apply NetworkFacts.Flatten_shape in H3.
  destruct (NetworkFacts.stack_on_784 p
              (Flatten_forward (unsqueeze Float32 X)) 1 eq_refl H3)
    as (out & Hrun & Hd & Hshape & _).
  apply NetworkFacts.matrix_shape_spec in Hshape as [Hcols Hshape].
  apply NetworkFacts.has_shape2_spec in Hshape as [Hlen Hrows].
  destruct out as [d c [| logits [| ? ?]]]; try discriminate.
  cbn [matrix_dtype matrix_cols matrix_rows] in *. subst d c.
  inversion Hrows as [| ? ? Hten _]; subst.
  assert (Hfwd : forward (__init__ p) (unsqueeze Float32 X)
                 = Ok {| matrix_dtype := Float32;
                         matrix_cols := 10;
                         matrix_rows := [logits] |}).
  { unfold forward. change (flatten (__init__ p)) with Flatten_forward.
    rewrite Hrun. reflexivity. }
  destruct logits as [| q l]; [discriminate |].
  exists q, l. split; [exact Hfwd |]. split; [exact Hten |].
  unfold estimate. rewrite Hfwd. simpl. rewrite app_nil_r. reflexivity.
Qed.

(** X14: for a 28 by 28 image and any parameters, the estimate of the
    evaluation cell is a digit: the network gives ten outputs for the
    single image, and the label is the first position, among 0 to 9, of
    a largest output, in the order of [torch.argmax] (NaN above all). *)
Theorem estimate_is_a_digit (p : parameters) (X : plane) :
  has_shape2 X 28 28 = true ->
  exists logits label,
    forward (__init__ p) (unsqueeze Float32 X)
    = Ok {| matrix_dtype := Float32;
            matrix_cols := 10;
            matrix_rows := [logits] |}
    /\ List.length logits = 10%nat
    /\ estimate (__init__ p) Float32 X = Ok label
    /\ (label < 10)%nat
    /\ (forall q, In q logits -> not_over q (nth label logits NaN))
    /\ (forall j, (j < label)%nat ->
          under (nth j logits NaN) (nth label logits NaN)).
Proof.
  intros HX.
  destruct (estimate_run p X HX) as (q & l & Hfwd & Hten & Hest).
  destruct (scan_row q l) as (Hlt & Hmax & Hfirst).
  exists (q :: l), (argmax_from 0 q 1 l).
  split; [exact Hfwd |]. split; [exact Hten |]. split; [exact Hest |].
  split; [rewrite Hten in Hlt; exact Hlt |].
  split; assumption.
Qed.

End AnyArithmetic.

(** NaN counts as the largest output, and the first of two wins. *)
Example argmax_with_nan :
  argmax [Finite 1; NaN; PosInf; NaN] = Ok 1%nat.
Proof. reflexivity. Qed.

(** A blank image. *)
Lemma estimate_is_a_digit_witness :
  has_shape2 Samples.blank_image 28 28 = true
  /\ exists logits label,
       forward (__init__ Samples.zero_parameters)
               (unsqueeze Float32 Samples.blank_image)
       = Ok {| matrix_dtype := Float32;
               matrix_cols := 10;
               matrix_rows := [logits] |}
       /\ List.length logits = 10%nat
       /\ estimate (__init__ Samples.zero_parameters) Float32
                   Samples.blank_image
          = Ok label
       /\ (label < 10)%nat.
Proof.
  split; [reflexivity |].
  destruct (estimate_is_a_digit (arithmetic := exact) Samples.zero_parameters
              Samples.blank_image eq_refl)
    as (logits & label & Hfwd & Hlen & Hest & Hlt & _).
  exists logits, label. auto.
Defined.

End PredictFacts.

(** ** The training loop *)

Module TrainingFacts.
Import Exn Session Training.

Lemma next_hundred (k : nat) :
  ((S k + 99) / 100
   = (k + 99) / 100 + (if (k mod 100 =? 0) then 1 else 0))%nat.
Proof.
  pose proof (Nat.div_mod_eq k 100) as Hk.
  pose proof (Nat.mod_upper_bound k 100 ltac:(lia)) as Hr.
  set (q := (k / 100)%nat) in *. set (r := (k mod 100)%nat) in *.
  destruct (r =? 0)%nat eqn:E.
  - apply Nat.eqb_eq in E.
    rewrite <- (Nat.div_unique (S k + 99) 100 (q + 1) 0) by lia.
    rewrite <- (Nat.div_unique (k + 99) 100 q 99) by lia.
    reflexivity.
  - apply Nat.eqb_neq in E.
    rewrite <- (Nat.div_unique (S k + 99) 100 (q + 1) r) by lia.
    rewrite <- (Nat.div_unique (k + 99) 100 (q + 1) (r - 1)) by lia.
    lia.
Qed.

Lemma hundred_ceiling (n : nat) : (n <= 100 * ((n + 99) / 100))%nat.
Proof.
  pose proof (Nat.div_mod_eq (n + 99) 100) as Hn.
  pose proof (Nat.mod_upper_bound (n + 99) 100 ltac:(lia)) as Hr.
  lia.
Qed.

(** Among a list, the largest element of a non-increasing list is its
    first. *)
Lemma nonincreasing_head (a : nat) (l : list nat) :
  nonincreasing (a :: l) -> forall b, In b l -> (b <= a)%nat.
Proof.
  revert a. induction l as [| c l IH]; intros a Hni b Hb; [destruct Hb |].
  destruct Hni as [Hca Hrest].
  destruct Hb as [<- | Hb]; [exact Hca |].
  specialize (IH c Hrest b Hb). lia.
Qed.

Lemma nonincreasing_tail (a : nat) (l : list nat) :
  nonincreasing (a :: l) -> nonincreasing l.
Proof. destruct l as [| b l]; simpl; tauto. Qed.

(** With non-increasing sizes, [k] times the size of batch [k] is at
    most the total size of the batches before it. *)
Lemma product_below_sum (l : list nat) :
  nonincreasing l ->
  forall k a, nth_error l k = Some a ->
    (k * a <= list_sum (firstn k l))%nat.
Proof.
  induction l as [| b l IH]; intros Hni k a Hnth.
  - destruct k; discriminate.
  - destruct k as [| k]; [simpl; lia |].
    simpl in Hnth. cbn [firstn list_sum].
    pose proof (nonincreasing_head b l Hni a (nth_error_In _ _ Hnth)) as Hab.
    specialize (IH (nonincreasing_tail b l Hni) k a Hnth).
    simpl. lia.
Qed.

Section Loop.
Context {L Batch Labels Pred Loss : Type}.
Variable model : Batch -> M L Pred.
Variable loss_fn : Pred -> Labels -> M L Loss.
Variable zero_grad : M L unit.
Variable backward : Loss -> M L unit.
Variable step : M L unit.
Variable item : Loss -> M L Q.
Variable len : Batch -> nat.

#[local] Set Warnings "-notation-for-abbreviation".

Notation train_batch := (train_batch model loss_fn zero_grad backward step item len).
Notation train_from := (train_from model loss_fn zero_grad backward step item len).
Notation train := (train model loss_fn zero_grad backward step item len).

(** The batches at which a status line is due, each with its number. *)
Notation due k batches :=
  (filter (fun kb : nat * (Batch * Labels) => (fst kb mod 100 =? 0)%nat)
          (combine (seq k (List.length batches)) batches)).

(** What a batch that goes through leaves printed. *)
Lemma train_batch_ok (size_ k : nat) (X : Batch) (y : Labels)
    (s s' : session) :
  train_batch size_ k X y s = (s', Ok tt) ->
  exists v,
    snd s' = snd s
             ++ (if (k mod 100 =? 0)%nat
                 then [ {| loss_value := v; current := k * len X;
                           size := size_ |} ]
                 else []).
Proof.
  unfold Training.train_batch, then_, call, print, ret.
  destruct s as [l out]; cbn [fst snd].
  destruct (model X l) as [l1 [pred | e]]; cbn [fst snd]; [| discriminate].
  destruct (loss_fn pred y l1) as [l2 [loss | e]]; cbn [fst snd];
    [| discriminate].
  destruct (zero_grad l2) as [l3 [[] | e]]; cbn [fst snd]; [| discriminate].
  destruct (backward loss l3) as [l4 [[] | e]]; cbn [fst snd];
    [| discriminate].
  destruct (step l4) as [l5 [[] | e]]; cbn [fst snd]; [| discriminate].
  destruct (k mod 100 =? 0)%nat; cbn [fst snd].
  - destruct (item loss l5) as [l6 [v | e]]; cbn [fst snd]; [| discriminate].
    intros H. injection H as <-. exists v. reflexivity.
  - intros H. injection H as <-. exists 0%Q.
    cbn [snd]. rewrite app_nil_r. reflexivity.
Qed.

(** The lines of a run that goes through: one for each batch due. *)
Lemma train_from_ok (size_ : nat) (batches : list (Batch * Labels)) :
  forall (k : nat) (s s' : session),
    train_from size_ k batches s = (s', Ok tt) ->
    exists lines,
      snd s' = snd s ++ lines
      /\ map (fun ln => (current ln, size ln)) lines
         = map (fun kb => (fst kb * len (fst (snd kb)), size_))%nat
               (due k batches).
Proof.
  induction batches as [| [X y] rest IH]; intros k s s' Hrun.
  - injection Hrun as <-. exists []. rewrite app_nil_r. split; reflexivity.
  - cbn [Training.train_from] in Hrun. unfold then_ in Hrun.
    destruct (train_batch size_ k X y s) as [s1 [[] | e]] eqn:Hb;
      [| discriminate].
    destruct (train_batch_ok _ _ _ _ _ _ Hb) as [v Hout].
    destruct (IH (S k) s1 s' Hrun) as (lines & Hlines & Hmap).
    cbn [List.length seq combine filter fst].
    destruct (k mod 100 =? 0)%nat.
    + eexists (_ :: lines). split.
      * rewrite Hlines, Hout, <- app_assoc. reflexivity.
      * cbn [map current size fst snd]. rewrite Hmap. reflexivity.
    + exists lines. split; [| exact Hmap].
      rewrite Hlines, Hout, app_nil_r. reflexivity.
Qed.

Lemma due_count (batches : list (Batch * Labels)) :
  forall k,
    (List.length (due k batches) + (k + 99) / 100
     = (k + List.length batches + 99) / 100)%nat.
Proof.
  induction batches as [| b rest IH]; intros k.
  - simpl. rewrite Nat.add_0_r. reflexivity.
  - cbn [List.length seq combine filter fst].
    specialize (IH (S k)). pose proof (next_hundred k) as Hnext.
    replace (k + S (List.length rest))%nat with (S k + List.length rest)%nat
      by lia.
    destruct (k mod 100 =? 0)%nat; cbn [List.length]; lia.
Qed.

Lemma due_members (batches : list (Batch * Labels)) :
  forall k k' b,
    In (k', b) (due k batches) ->
    (k' mod 100 = 0)%nat /\ (k <= k')%nat
    /\ nth_error batches (k' - k) = Some b.
Proof.
  induction batches as [| b0 rest IH]; intros k k' b Hin; [destruct Hin |].
  cbn [List.length seq combine filter fst] in Hin.
  assert (Hrest : In (k', b) (due (S k) rest) ->
                  (k' mod 100 = 0)%nat /\ (k <= k')%nat
                  /\ nth_error (b0 :: rest) (k' - k) = Some b).
  { intros H. destruct (IH _ _ _ H) as (Hmod & Hle & Hnth).
    split; [exact Hmod |]. split; [lia |].
    replace (k' - k)%nat with (S (k' - S k)) by lia. exact Hnth. }
  destruct (k mod 100 =? 0)%nat eqn:Hk; [| apply Hrest, Hin].
  destruct Hin as [Heq | Hin]; [| apply Hrest, Hin].
  injection Heq as <- <-. apply Nat.eqb_eq in Hk.
  rewrite Nat.sub_diag. auto.
Qed.

(** The [j]-th batch due, from batch number [k] on, is the one whose
    number is the [j]-th multiple of 100 from [k] on. *)
Lemma due_nth (batches : list (Batch * Labels)) :
  forall k j k' b,
    nth_error (due k batches) j = Some (k', b) ->
    k' = (100 * ((k + 99) / 100 + j))%nat
    /\ nth_error batches (k' - k) = Some b.
Proof.
  induction batches as [| b0 rest IH]; intros k j k' b Hnth.
  - destruct j; discriminate.
  - cbn [List.length seq combine filter fst] in Hnth.
    pose proof (next_hundred k) as Hnext.
    pose proof (hundred_ceiling (S k)) as Hceil.
    assert (Hrest : forall j', nth_error (due (S k) rest) j' = Some (k', b) ->
                      k' = (100 * ((S k + 99) / 100 + j'))%nat
                      /\ nth_error (b0 :: rest) (k' - k) = Some b).
    { intros j' H. destruct (IH _ _ _ _ H) as (Hk' & Hb).
      split; [exact Hk' |].
      replace (k' - k)%nat with (S (k' - S k)) by lia. exact Hb. }
    destruct (k mod 100 =? 0)%nat eqn:Hk.
    + destruct j as [| j'].
      * injection Hnth as <- <-. rewrite Nat.sub_diag.
        split; [| reflexivity].
        apply Nat.eqb_eq in Hk.
        pose proof (Nat.div_mod_eq k 100) as Hdiv.
        rewrite <- (Nat.div_unique (k + 99) 100 (k / 100) 99) by lia.
        lia.
      * destruct (Hrest j' Hnth) as (Hk' & Hb). split; [lia | exact Hb].
    + destruct (Hrest j Hnth) as (Hk' & Hb). split; [lia | exact Hb].
Qed.

(** The lines of a run that goes through, one by one: the [j]-th line
    is the one of batch number [100 * j]. *)
Lemma line_of_batch (size_ : nat) (batches : list (Batch * Labels))
    (s s' : session) :
  train size_ batches s = (s', Ok tt) ->
  exists lines,
    snd s' = snd s ++ lines
    /\ List.length lines = ((List.length batches + 99) / 100)%nat
    /\ forall j ln, nth_error lines j = Some ln ->
         size ln = size_
         /\ exists X y,
              nth_error batches (100 * j) = Some (X, y)
              /\ current ln = (100 * j * len X)%nat.
Proof.
  intros Hrun. unfold Training.train in Hrun.
  destruct (train_from_ok _ _ _ _ _ Hrun) as (lines & Hlines & Hmap).
  exists lines. split; [exact Hlines |]. split.
  - pose proof (due_count batches 0) as Hcount.
    apply (f_equal (@List.length _)) in Hmap. rewrite !length_map in Hmap.
    change ((0 + 99) / 100)%nat with 0%nat in Hcount.
    rewrite Nat.add_0_r in Hcount.
    exact (eq_trans Hmap Hcount).
  - intros j ln Hln.
    apply (f_equal (fun l => nth_error l j)) in Hmap.
    rewrite !nth_error_map, Hln in Hmap. cbn [option_map] in Hmap.
    destruct (nth_error (due 0 batches) j) as [[k [X y]] |] eqn:Hdue;
      [| discriminate].
    cbn [option_map fst snd] in Hmap. injection Hmap as Hcur Hsize.
    destruct (due_nth _ _ _ _ _ Hdue) as (Hk & Hnth).
    change ((0 + 99) / 100)%nat with 0%nat in Hk.
    rewrite Nat.add_0_l in Hk. rewrite Nat.sub_0_r in Hnth. subst k.
    split; [exact Hsize |].
    exists X, y. split; [exact Hnth | exact Hcur].
Qed.

(** X15: when the training loop goes through [n] batches, it prints a
    status line for the batches numbered 0, 100, 200, ... and for no
    other, in that order: [(n + 99) / 100] lines, of which the [j]-th
    (from zero) has the size given and, as [current], the batch number
    [100 * j] times the length of that batch. *)
Theorem status_lines (size_ : nat) (batches : list (Batch * Labels))
    (s s' : session) :
  train size_ batches s = (s', Ok tt) ->
  exists lines,
    snd s' = snd s ++ lines
    /\ List.length lines = ((List.length batches + 99) / 100)%nat
    /\ forall j ln, nth_error lines j = Some ln ->
         size ln = size_
         /\ exists X y,
              nth_error batches (100 * j) = Some (X, y)
              /\ current ln = (100 * j * len X)%nat.
Proof.
  exact (line_of_batch size_ batches s s').
Qed.

(** X16: when the sizes of the batches never grow along the loader (all
    equal but for a shorter last one, say), no status line reports more
    than has been processed: the [j]-th line is the one of batch number
    [100 * j], and its [current] is at most the number of samples in
    the batches before that one. *)
Theorem current_never_ahead (size_ : nat) (batches : list (Batch * Labels))
    (s s' : session) :
  nonincreasing (map (fun b => len (fst b)) batches) ->
  train size_ batches s = (s', Ok tt) ->
  exists lines,
    snd s' = snd s ++ lines
    /\ List.length lines = ((List.length batches + 99) / 100)%nat
    /\ forall j ln, nth_error lines j = Some ln ->
         exists X y,
           nth_error batches (100 * j) = Some (X, y)
           /\ current ln = (100 * j * len X)%nat
           /\ (current ln <= seen_before len (100 * j) batches)%nat.
Proof.
  intros Hni Hrun.
  destruct (line_of_batch size_ batches s s' Hrun)
    as (lines & Hlines & Hcount & Heach).
  exists lines. split; [exact Hlines |]. split; [exact Hcount |].
  intros j ln Hln.
  destruct (Heach j ln Hln) as (_ & X & y & Hnth & Hcur).
  exists X, y. split; [exact Hnth |]. split; [exact Hcur |].
  rewrite Hcur. unfold seen_before. rewrite <- firstn_map.
  apply product_below_sum; [exact Hni |].
  rewrite nth_error_map, Hnth. reflexivity.
Qed.

(** X17: the loop has no handler: training on [first ++ second] is
    training on [first] and, if that went through, going on with
    [second] under the following batch numbers; if a batch of [first]
    raised, the exception ends the loop with the state and the lines of
    that moment, whatever [second] holds. *)
Theorem train_continues_or_stops (size_ : nat)
    (first second : list (Batch * Labels)) :
  forall (k : nat) (s : session),
    train_from size_ k (first ++ second) s
    = match train_from size_ k first s with
      | (s', Ok _) => train_from size_ (k + List.length first) second s'
      | (s', Raised e) => (s', Raised e)
      end.
Proof.
  induction first as [| [X y] rest IH]; intros k s.
  - cbn [app Training.train_from List.length]. unfold ret.
    rewrite Nat.add_0_r. reflexivity.
  - cbn [app Training.train_from List.length]. unfold then_.
    destruct (train_batch size_ k X y s) as [s1 [[] | e]]; [| reflexivity].
    rewrite IH. rewrite Nat.add_succ_comm. reflexivity.
Qed.

End Loop.

(** Two hundred and one batches of one sample through the small
    library: lines for the batches 0, 100 and 200. *)
Example three_status_lines :
  snd (fst (Toy.train 201 (repeat ([1%Z], [0%Z]) 201) (0%nat, [])))
  = [ {| loss_value := 1; current := 0; size := 201 |};
      {| loss_value := 1; current := 100; size := 201 |};
      {| loss_value := 1; current := 200; size := 201 |} ].
Proof. vm_compute. reflexivity. Qed.

(** Two batches through the small library. *)
Lemma status_lines_witness :
  Toy.train 3 Toy.batches (0%nat, [])
  = ((2%nat, [ {| loss_value := 3; current := 0; size := 3 |} ]), Ok tt)
  /\ exists lines,
       [ {| loss_value := 3%Q; current := 0; size := 3 |} ] = [] ++ lines
       /\ List.length lines = ((2 + 99) / 100)%nat.
Proof.
  assert (Hrun : Toy.train 3 Toy.batches (0%nat, [])
                 = ((2%nat, [ {| loss_value := 3; current := 0; size := 3 |} ]),
                    Ok tt)) by reflexivity.
  split; [exact Hrun |].
  destruct (status_lines Toy.model Toy.loss_fn Toy.zero_grad Toy.backward
              Toy.step Toy.item (@List.length Z) 3 Toy.batches _ _ Hrun)
    as (lines & Hlines & Hcount & _).
  exists lines. split; [exact Hlines | exact Hcount].
Defined.

Lemma current_never_ahead_witness :
  nonincreasing (map (fun b => List.length (fst b)) Toy.batches)
  /\ Toy.train 3 Toy.batches (0%nat, [])
     = ((2%nat, [ {| loss_value := 3; current := 0; size := 3 |} ]), Ok tt)
  /\ exists lines,
       [ {| loss_value := 3%Q; current := 0; size := 3 |} ] = [] ++ lines
       /\ List.length lines = ((2 + 99) / 100)%nat
       /\ forall j ln, nth_error lines j = Some ln ->
            exists X y,
              nth_error Toy.batches (100 * j) = Some (X, y)
              /\ current ln = (100 * j * List.length X)%nat
              /\ (current ln
                  <= seen_before (@List.length Z) (100 * j) Toy.batches)%nat.
Proof.
  assert (Hni : nonincreasing (map (fun b => List.length (fst b)) Toy.batches))
    by (simpl; lia).
  assert (Hrun : Toy.train 3 Toy.batches (0%nat, [])
                 = ((2%nat, [ {| loss_value := 3; current := 0; size := 3 |} ]),
                    Ok tt)) by reflexivity.
  split; [exact Hni |]. split; [exact Hrun |].
  apply (current_never_ahead Toy.model Toy.loss_fn Toy.zero_grad Toy.backward
           Toy.step Toy.item (@List.length Z) 3 Toy.batches _ _ Hni Hrun).
Defined.

End TrainingFacts.

(** ** The evaluation loop *)

Module EvaluationFacts.
Import Exn Session NeuralNetwork Predict Evaluation.

Lemma map_fst_combine {A B : Type} (a : list A) :
  forall b : list B, map fst (combine a b) = firstn (List.length b) a.
Proof.
  induction a as [| x a IH]; intros [| y b]; simpl; try reflexivity.
  rewrite IH. reflexivity.
Qed.

Lemma map_snd_combine {A B : Type} (a : list A) :
  forall b : list B, map snd (combine a b) = firstn (List.length a) b.
Proof.
  induction a as [| x a IH]; intros [| y b]; simpl; try reflexivity.
  rewrite IH. reflexivity.
Qed.

Lemma first_shown_from (d : nat -> Q) (n : nat) :
  forall u k, first_shown d u n = Some k -> (u <= k < u + n)%nat.
Proof.
  induction n as [| n IH]; intros u k H; simpl in H; [discriminate |].
  destruct (Qltb (d u) (9 # 10)).
  - apply IH in H. lia.
  - injection H as <-. lia.
Qed.

Section AnyArithmetic.
Context {arithmetic : Arithmetic}.

(** The inner loop on images of the right size: one title each, with
    a digit as estimate. *)
Lemma show_ok (p : parameters) (items : list (nat * sample)) :
  forall (d : nat -> Q) (u : nat) (ts : list title),
    Forall (fun it => has_shape2 (fst (snd it)) 28 28 = true) items ->
    exists new,
      show (__init__ p) items {| draws := d; used := u; titles := ts |}
      = ({| draws := d; used := u; titles := ts ++ new |}, Ok tt)
      /\ map axis new = map fst items
      /\ map truth new = map (fun it => snd (snd it)) items
      /\ Forall (fun t => (estimated t < 10)%nat) new.
Proof.
  induction items as [| [ax [X y]] rest IH]; intros d u ts Hshape.
  - exists []. rewrite app_nil_r. repeat split; constructor.
  - inversion Hshape as [| ? ? HX Hrest]; subst. cbn [fst snd] in HX.
    destruct (PredictFacts.estimate_run p X HX) as (q & l & _ & Hten & Hest).
    destruct (PredictFacts.scan_row q l) as (Hlt & _ & _).
    rewrite Hten in Hlt.
    destruct (IH d u (ts ++ [ {| axis := ax;
                                 estimated := argmax_from 0 q 1 l;
                                 truth := y |} ]) Hrest)
      as (new & Hrun & Haxes & Htruth & Hdigits).
    eexists (_ :: new). split.
    + cbn [show]. unfold then_, pure_call, set_title, loader_dtype.
      rewrite Hest. cbn [draws used titles].
      rewrite Hrun, <- app_assoc. reflexivity.
    + cbn [map axis truth fst snd]. rewrite Haxes, Htruth.
      repeat split. constructor; [exact Hlt | exact Hdigits].
Qed.

(** X18: the evaluation cell may show nothing: when the draw for every
    batch is below 0.9, every batch is skipped, one draw is used per
    batch, no title is set and the loop ends without an exception. *)
Theorem evaluate_may_show_nothing (model : NeuralNetwork.t)
    (batches : list (list sample)) (s : session) :
  first_shown (draws s) (used s) (List.length batches) = None ->
  evaluate model batches s
  = ({| draws := draws s;
        used := used s + List.length batches;
        titles := titles s |}, Ok tt).
Proof.
  destruct s as [d u ts]. cbn [draws used titles].
  revert u. induction batches as [| b rest IH]; intros u Hnone.
  - simpl. unfold ret. rewrite Nat.add_0_r. reflexivity.
  - cbn [List.length first_shown] in Hnone.
    cbn [evaluate]. unfold then_, rand. cbn [draws used titles].
    destruct (Qltb (d u) (9 # 10)); [| discriminate].
    rewrite (IH (S u) Hnone). cbn [List.length].
    rewrite Nat.add_succ_comm. reflexivity.
Qed.

End AnyArithmetic.

Lemma evaluate_may_show_nothing_witness :
  first_shown (fun _ => 0%Q) 0 (List.length Toy.blank_batches) = None
  /\ evaluate (__init__ Samples.zero_parameters) Toy.blank_batches
       {| draws := fun _ => 0%Q; used := 0; titles := [] |}
     = ({| draws := fun _ => 0%Q; used := 2; titles := [] |}, Ok tt).
Proof.
  split; [reflexivity |].
  apply (evaluate_may_show_nothing (arithmetic := exact)
           (__init__ Samples.zero_parameters) Toy.blank_batches
           {| draws := fun _ => 0%Q; used := 0; titles := [] |}).
  reflexivity.
Defined.

Section ShownBatch.
Context {arithmetic : Arithmetic}.

(** X19: otherwise the cell shows one batch, the first whose draw is not
    below 0.9, and draws no further: with 28 by 28 images, it sets a
    title on the first axes for the first images of that batch, at most
    four, each with a digit as estimate and the image's label as truth. *)
Theorem evaluate_shows_first_passing (p : parameters)
    (batches : list (list sample)) (s : session) (k : nat)
    (batch : list sample) :
  first_shown (draws s) (used s) (List.length batches) = Some k ->
  nth_error batches (k - used s) = Some batch ->
  Forall (fun it => has_shape2 (fst it) 28 28 = true) (firstn 4 batch) ->
  exists new,
    evaluate (__init__ p) batches s
    = ({| draws := draws s; used := S k; titles := titles s ++ new |}, Ok tt)
    /\ List.length new = Nat.min 4 (List.length batch)
    /\ map axis new = firstn (List.length batch) axs
    /\ map truth new = map snd (firstn 4 batch)
    /\ Forall (fun t => (estimated t < 10)%nat) new.
Proof.
  destruct s as [d u ts]. cbn [draws used titles].
  revert u. induction batches as [| b rest IH]; intros u Hsome Hnth Hshape.
  - discriminate.
  - cbn [List.length first_shown] in Hsome.
    cbn [evaluate]. unfold then_, rand. cbn [draws used titles].
    destruct (Qltb (d u) (9 # 10)).
    + pose proof (first_shown_from _ _ _ _ Hsome) as Hk.
      replace (k - u)%nat with (S (k - S u)) in Hnth by lia.
      apply (IH (S u) Hsome Hnth Hshape).
    + injection Hsome as <-. rewrite Nat.sub_diag in Hnth.
      injection Hnth as ->.
      destruct (show_ok p (zip_axes batch) d (S u) ts)
        as (new & Hrun & Haxes & Htruth & Hdigits).
      { unfold zip_axes.
        apply (proj1 (Forall_map snd
                        (fun smp : sample => has_shape2 (fst smp) 28 28 = true)
                        (combine axs batch))).
        rewrite map_snd_combine. exact Hshape. }
      exists new. split; [exact Hrun |].
      unfold zip_axes in Haxes, Htruth.
      rewrite map_fst_combine in Haxes.
      rewrite <- (map_map snd snd), map_snd_combine in Htruth.
      split; [| split; [exact Haxes | split; [exact Htruth | exact Hdigits]]].
      apply (f_equal (@List.length _)) in Haxes.
      rewrite length_map, length_firstn in Haxes.
      change (List.length axs) with 4%nat in Haxes. lia.
Qed.

End ShownBatch.

Lemma evaluate_shows_first_passing_witness :
  first_shown Toy.draws 0 (List.length Toy.blank_batches) = Some 1%nat
  /\ nth_error Toy.blank_batches (1 - 0)
     = Some [(Samples.blank_image, 8%Z)]
  /\ exists new,
       evaluate (__init__ Samples.zero_parameters) Toy.blank_batches
         {| draws := Toy.draws; used := 0; titles := [] |}
       = ({| draws := Toy.draws; used := 2; titles := [] ++ new |}, Ok tt)
       /\ List.length new = 1%nat
       /\ map truth new = [8%Z].
Proof.
  split; [reflexivity |]. split; [reflexivity |].
  destruct (evaluate_shows_first_passing (arithmetic := exact)
              Samples.zero_parameters Toy.blank_batches
              {| draws := Toy.draws; used := 0; titles := [] |} 1
              [(Samples.blank_image, 8%Z)] eq_refl eq_refl)
    as (new & Hrun & Hlen & _ & Htruth & _).
  { repeat constructor. }
  exists new. auto.
Defined.

End EvaluationFacts.

(** ** Names across cells *)

Module NamesFacts.
Import PyAst Names.

(** Run in another order, the abagen notebook would read names before
    they are bound. *)
Example reversed_reads_unbound :
  hd "" (nb_unbound (rev Abagen.cells)) = "expression_maxprobe".
Proof. vm_compute. reflexivity. Qed.

(** X20: from top to bottom no cell reads a name before it is bound:
    every name a cell reads is bound earlier in the cell, by a cell above
    it, or is a built-in, and so is every name a function body reads by
    the end of the cell that defines the function.  The cells stand in
    the file in the order of their lines. *)
Theorem no_read_before_binding :
  nb_unbound Abagen.cells = []
  /\ nb_unbound Torch.cells = []
  /\ ascending (map cell_line Abagen.cells) = true
  /\ ascending (map cell_line Torch.cells) = true.
Proof.
  split; [vm_compute; reflexivity |].
  split; [vm_compute; reflexivity |].
  split; reflexivity.
Qed.

(** X21: the name [loss] is defined as a function by the cell at line
    375 and assigned to by the training cell at line 715, and by no
    other.  The cells that call [loss] are those at lines 375, 401 and
    424; the first defines it before calling it, the other two read it
    from an earlier cell.  Every call of [loss], and of the other
    functions and classes the notebook defines, stands in a cell above
    any cell that assigns to its name. *)
Theorem loss_is_rebound_after_its_calls :
  cells_defining "loss" Torch.cells = [375%nat]
  /\ cells_assigning "loss" Torch.cells = [715%nat]
  /\ cells_calling "loss" Torch.cells = [375; 401; 424]%nat
  /\ cells_reading_outside "loss" Torch.cells = [401; 424]%nat
  /\ forallb
       (fun n =>
          forallb
            (fun c => forallb (fun a => (c <? a)%nat)
                              (cells_assigning n Torch.cells))
            (cells_calling n Torch.cells))
       (nb_defined_names Torch.cells)
     = true
  /\ nb_defined_names Torch.cells
     = ["curve"; "loss"; "MNISTDataset"; "NeuralNetwork"].
Proof.
  split; [reflexivity |].
  split; [reflexivity |].
  split; [reflexivity |].
  split; [vm_compute; reflexivity |].
  split; [vm_compute; reflexivity | reflexivity].
Qed.

End NamesFacts.

(** ** More on the order of the abagen notebook *)

Module OrderMore.
Import PyAst Run RunMore.


(** With the cell that displays the second report and the cell that
    saves the first CSV exchanged, a display still comes before the
    save, but not two. *)
Example second_report_counts :
  exists tr,
    nb_run (fun _ => Proceed) (exchange 12 Abagen.cells) = Some tr
    /\ map cell_line (firstn 2 (skipn 12 Abagen.cells)) = [148; 160]%nat
    /\ check_precedes (EvReturn "display") (EvCall "expression.to_csv")
                      false tr = true
    /\ check_preceded_by 2 (EvReturn "display") (EvCall "expression.to_csv")
                         0 tr = false.
Proof.
  eexists. split; [vm_compute; reflexivity |].
  split; [reflexivity |]. split; vm_compute; reflexivity.
Qed.




End OrderMore.
